(** * Aeris weather module: a shallow embedding of [src/modules/weather.py]

    The development follows the Python source function by function:

    - the [str] methods the module relies on ([lower], [strip], [title],
      [replace], the [in] operator) and the one regular expression it
      searches for, written as executable functions on [string];
    - the values produced by [response.json()] ([pyval]), with the few
      builtins applied to them ([x[k]], [len], [in], [dict.get], [str]),
      each raising the Python exception the interpreter would raise;
    - a writer-and-error monad [M] that records every call made to an
      external collaborator (the language-model extractor, [requests.get],
      the imported description helper) and carries raised exceptions;
    - [parse_weather_input], [WeatherModule.weather_description_fetcher],
      [WeatherModule.fetch_weather] and [WeatherModule.handle_weather].

    Text is modelled on ASCII: the character functions agree with CPython
    on code points below 128 and leave every other byte untouched.  Logger
    calls return nothing and never alter control flow; they are left out.
    The exception type covers instances of [Exception] only. *)

From Stdlib Require Import ZArith String Ascii Floats DecimalString Bool Lia.
From stdpp Require Import gmap strings list.

#[local] Set Warnings "-register-all,-inexact-float".
#[local] Open Scope Z_scope.

(** ** Python [str] methods *)

Module Py.

Definition code (c : ascii) : N := N_of_ascii c.

Definition isupper (c : ascii) : bool := ((65 <=? code c) && (code c <=? 90))%N.
Definition islower (c : ascii) : bool := ((97 <=? code c) && (code c <=? 122))%N.
Definition iscased (c : ascii) : bool := isupper c || islower c.

(** [str.isspace] on ASCII: TAB..CR, FS..US and the blank.  The whitespace
    characters beyond ASCII (U+00A0, U+3000, ...) are not covered. *)
Definition isspace (c : ascii) : bool :=
  ((9 <=? code c) && (code c <=? 13) || (28 <=? code c) && (code c <=? 32))%N.

Definition char_lower (c : ascii) : ascii :=
  if isupper c then ascii_of_N (code c + 32) else c.
Definition char_upper (c : ascii) : ascii :=
  if islower c then ascii_of_N (code c - 32) else c.

(** [s.lower()], on ASCII text: only [A]..[Z] are changed. *)
Fixpoint lower (s : string) : string :=
  match s with
  | EmptyString => EmptyString
  | String c s' => String (char_lower c) (lower s')
  end.

(** [s.lstrip()], [s.rstrip()] and [s.strip()] with no argument. *)
Fixpoint lstrip (s : string) : string :=
  match s with
  | EmptyString => EmptyString
  | String c s' => if isspace c then lstrip s' else s
  end.

Fixpoint rstrip (s : string) : string :=
  match s with
  | EmptyString => EmptyString
  | String c s' =>
      match rstrip s' with
      | EmptyString => if isspace c then EmptyString else String c EmptyString
      | r => String c r
      end
  end.

Definition strip (s : string) : string := rstrip (lstrip s).

(** [s.title()], on ASCII text: a cased character is upper-cased when the
    character before it is not cased, and lower-cased otherwise; the cased
    characters are the ASCII letters. *)
Fixpoint title_from (previous_is_cased : bool) (s : string) : string :=
  match s with
  | EmptyString => EmptyString
  | String c s' =>
      String (if previous_is_cased then char_lower c else char_upper c)
             (title_from (iscased c) s')
  end.

Definition title (s : string) : string := title_from false s.

(** [sub in s] for two strings. *)
Fixpoint contains (sub s : string) : bool :=
  String.prefix sub s ||
  match s with
  | EmptyString => false
  | String _ s' => contains sub s'
  end.

(** [s.replace(old, new)]: one left-to-right pass over non-overlapping
    occurrences.  [skip] counts the characters of a matched occurrence that
    are still to be passed over. *)
Fixpoint replace_from (old new : string) (skip : nat) (s : string) : string :=
  match s with
  | EmptyString => EmptyString
  | String c s' =>
      match skip with
      | S k => replace_from old new k s'
      | O =>
          if String.prefix old s
          then new +:+ replace_from old new (String.length old - 1) s'
          else String c (replace_from old new O s')
      end
  end.

(** With an empty [old], Python puts [new] around every character. *)
Fixpoint intersperse (new s : string) : string :=
  match s with
  | EmptyString => new
  | String c s' => new +:+ String c (intersperse new s')
  end.

Definition replace (s old new : string) : string :=
  match old with
  | EmptyString => intersperse new s
  | _ => replace_from old new O s
  end.

(** The longest prefix of [s] made of characters satisfying [p]. *)
Fixpoint span (p : ascii -> bool) (s : string) : string :=
  match s with
  | EmptyString => EmptyString
  | String c s' => if p c then String c (span p s') else EmptyString
  end.

Fixpoint drop (n : nat) (s : string) : string :=
  match n, s with
  | O, _ => s
  | S _, EmptyString => EmptyString
  | S k, String _ s' => drop k s'
  end.

End Py.

(** ** The regular expression of [parse_weather_input] *)

(** The character class [[a-zA-Z\s]]. *)
Definition location_char (c : ascii) : bool :=
  Py.islower c || Py.isupper c || Py.isspace c.

(** An attempt to match [in ([a-zA-Z\s]+)] at the start of [s]; the result
    is group 1.  The group is greedy and nothing follows it in the pattern,
    so it is the whole run of class characters after ["in "]. *)
Definition match_in_here (s : string) : option string :=
  if String.prefix "in " s
  then match Py.span location_char (Py.drop 3 s) with
       | EmptyString => None
       | g => Some g
       end
  else None.

(** [re.search(r"in ([a-zA-Z\s]+)", s)], as the string of [match.group(1)]
    at the leftmost position where the pattern matches. *)
Fixpoint re_search_in (s : string) : option string :=
  match match_in_here s with
  | Some g => Some g
  | None =>
      match s with
      | EmptyString => None
      | String _ s' => re_search_in s'
      end
  end.

(** ** [parse_weather_input] *)

Definition fallback_keywords : list string :=
  [ "weather"; "forecast"; "tomorrow"; "today"; "is it"; "will it";
    "rain"; "raining"; "sunny"; "snow"; "cold"; "hot"; "outside"; "be"; "in"; "the" ]%string.

(** The [for keyword in [...]: location = location.replace(keyword, "")] loop. *)
Definition strip_keywords (keywords : list string) (location : string) : string :=
  fold_left (fun location keyword => Py.replace location keyword "") keywords location.

Definition parse_weather_input (user_input : string) : string * bool :=
  let user_input := Py.lower user_input in
  let is_tomorrow :=
    Py.contains "tomorrow" user_input || Py.contains "next day" user_input in
  let location :=
    match re_search_in user_input with
    | Some group1 => group1
    | None =>
        let location := user_input in
        let location := strip_keywords fallback_keywords location in
        Py.title (Py.strip location)
    end in
  (location, is_tomorrow).


(** ** Values, exceptions and results *)

(** What [json.loads] can produce.  A Python [dict] obtained from JSON has
    string keys, each bound once. *)
Inductive pyval : Type :=
| PNone
| PBool (b : bool)
| PInt (z : Z)
| PFloat (f : float)
| PStr (s : string)
| PList (l : list pyval)
| PDict (d : gmap string pyval).

(** Instances of [Exception].  [RequestException] stands for
    [requests.exceptions.RequestException] and all its subclasses, with the
    text of [str(e)]; the texts of the interpreter's own errors only ever
    reach the log and are not kept. *)
Inductive exn : Type :=
| RequestException (msg : string)
| KeyError
| IndexError
| TypeError
| AttributeError
| OtherException (msg : string).

Inductive result (A : Type) : Type :=
| Return (a : A)
| Raise (e : exn).
Arguments Return {A} a.
Arguments Raise {A} e.

(** [except requests.exceptions.RequestException] and [except Exception]. *)
Definition is_request_exception (e : exn) : bool :=
  match e with RequestException _ => true | _ => false end.
Definition is_exception (e : exn) : bool := true.

(** ** Builtins on values *)

Module Builtin.

Definition Z_to_string (z : Z) : string := NilEmpty.string_of_int (Z.to_int z).

(** The float equal to a small non-negative integer literal (exact below
    [2^53]; the source compares with 30 and 15 and the table stops at 96). *)
Definition Z_to_float (z : Z) : float := PrimFloat.of_uint63 (Uint63.of_Z z).

Section Str.
(** [repr] of floats and containers is the interpreter's business; it is
    a parameter of the model. *)
Variable repr : pyval -> string.

(** [str(v)], which is what an f-string field [{v}] renders. *)
Definition str (v : pyval) : string :=
  match v with
  | PNone => "None"
  | PBool true => "True"
  | PBool false => "False"
  | PInt z => Z_to_string z
  | PStr s => s
  | PFloat _ | PList _ | PDict _ => repr v
  end.
End Str.

(** [v[key]] for a string literal [key]. *)
Definition getitem_key (v : pyval) (key : string) : result pyval :=
  match v with
  | PDict d => match d !! key with Some x => Return x | None => Raise KeyError end
  | _ => Raise TypeError
  end.

(** [v[i]] for a non-negative integer literal [i]. *)
Definition getitem_index (v : pyval) (i : nat) : result pyval :=
  match v with
  | PList l => match l !! i with Some x => Return x | None => Raise IndexError end
  | PStr s =>
      match String.get i s with
      | Some c => Return (PStr (String c EmptyString))
      | None => Raise IndexError
      end
  | PDict _ => Raise KeyError
  | _ => Raise TypeError
  end.

(** [len(v)] *)
Definition len (v : pyval) : result Z :=
  match v with
  | PList l => Return (Z.of_nat (length l))
  | PStr s => Return (Z.of_nat (String.length s))
  | PDict d => Return (Z.of_nat (size d))
  | _ => Raise TypeError
  end.

Definition is_str (key : string) (v : pyval) : bool :=
  match v with PStr s => String.eqb s key | _ => false end.

(** [key in v] for a string literal [key]: key membership in a dict,
    element membership in a list, substring test in a string. *)
Definition contains (key : string) (v : pyval) : result bool :=
  match v with
  | PDict d => Return (match d !! key with Some _ => true | None => false end)
  | PList l => Return (existsb (is_str key) l)
  | PStr s => Return (Py.contains key s)
  | _ => Raise TypeError
  end.

(** [v.get(key, default)]; only a dict has the method. *)
Definition get (v : pyval) (key : string) (default : pyval) : result pyval :=
  match v with
  | PDict d => Return (match d !! key with Some x => x | None => default end)
  | _ => Raise AttributeError
  end.

(** [v.lower()]; only a string has the method. *)
Definition lower (v : pyval) : result string :=
  match v with
  | PStr s => Return (Py.lower s)
  | _ => Raise AttributeError
  end.

(** [v > n] and [v < n] for an integer literal [n]. *)
Definition gt (v : pyval) (n : Z) : result bool :=
  match v with
  | PInt z => Return (n <? z)
  | PBool b => Return (n <? Z.b2z b)
  | PFloat f => Return (PrimFloat.ltb (Z_to_float n) f)
  | _ => Raise TypeError
  end.

Definition lt (v : pyval) (n : Z) : result bool :=
  match v with
  | PInt z => Return (z <? n)
  | PBool b => Return (Z.b2z b <? n)
  | PFloat f => Return (PrimFloat.ltb f (Z_to_float n))
  | _ => Raise TypeError
  end.

End Builtin.

(** ** External collaborators and the effect monad *)

(** A [requests.Response], as the outcomes of the two methods called on it. *)
Record response : Type := Response {
  raise_for_status : result unit;
  json : result pyval;
}.

(** A response with a 2xx status whose body parses to [data]. *)
Definition ok_response (data : pyval) : result response :=
  Return {| raise_for_status := Return tt; json := Return data |}.

(** Everything the module imports and calls but does not define. *)
Record world : Type := World {
  (** [modules.utils.extract_location(user_input, self.llm)] *)
  extract_location : string -> result pyval;
  (** [requests.get(url)] *)
  requests_get : string -> result response;
  (** [modules.utils.weather_description_fetcher(code)] *)
  utils_weather_description_fetcher : pyval -> result pyval;
  (** [repr] of floats, lists and dicts *)
  repr : pyval -> string;
}.

(** One record per call that leaves the module. *)
Inductive event : Type :=
| ExtractLocation (user_input : string)
| HttpGet (url : string)
| UtilsDescription (code : pyval)
| ClassDescription (code : pyval).

(** A computation yields the calls it made, in order, and either a value
    or a raised exception. *)
Definition M (A : Type) : Type := list event * result A.

Definition ret {A} (a : A) : M A := ([], Return a).

Definition lift {A} (r : result A) : M A := ([], r).

Definition call {A} (ev : event) (r : result A) : M A := ([ev], r).

Definition bind {A B} (m : M A) (k : A -> M B) : M B :=
  match m with
  | (calls, Return a) => let '(calls', r) := k a in (calls ++ calls', r)
  | (calls, Raise e) => (calls, Raise e)
  end.

(** [try: body / except <class> as e: handler]. *)
Definition try_except {A} (body : M A) (catches : exn -> bool) (handler : exn -> M A) : M A :=
  match body with
  | (calls, Raise e) =>
      if catches e
      then let '(calls', r) := handler e in (calls ++ calls', r)
      else (calls, Raise e)
  | finished => finished
  end.

Declare Scope py_scope.
Delimit Scope py_scope with py.
Notation "x <- m ;; k" := (bind m (fun x => k))
  (at level 100, m at next level, right associativity) : py_scope.
Notation "m ;; k" := (bind m (fun _ => k))
  (at level 100, right associativity) : py_scope.

Definition calls {A} (m : M A) : list event := fst m.
Definition outcome {A} (m : M A) : result A := snd m.

(** The URLs passed to [requests.get], in order. *)
Definition requested_urls (evs : list event) : list string :=
  omap (fun ev => match ev with HttpGet url => Some url | _ => None end) evs.

(** ** class [WeatherModule] *)

Module WeatherModule.

#[local] Open Scope py_scope.

(** The dict literal of the static method. *)
Definition weather_conditions_items : list (Z * string) :=
  [ (0, "Clear sky"); (1, "Mainly clear"); (2, "Partly cloudy"); (3, "Overcast");
    (45, "Foggy"); (48, "Depositing rime fog"); (51, "Light drizzle");
    (53, "Moderate drizzle"); (55, "Dense drizzle"); (61, "Slight rain");
    (63, "Moderate rain"); (65, "Heavy rain"); (71, "Slight snow");
    (73, "Moderate snow"); (75, "Heavy snow"); (80, "Rain showers");
    (81, "Moderate rain showers"); (82, "Heavy rain showers");
    (95, "Thunderstorm"); (96, "Thunderstorm with hail") ]%string.

Definition weather_conditions : gmap Z string := list_to_map weather_conditions_items.

(** [weather_conditions.get(code, "Unknown conditions")].  An [int] key is
    looked up as it is; [True] and [False] hash and compare as 1 and 0, a
    float as the integer it equals; [None] and strings are hashable and
    absent; lists and dicts are unhashable. *)
Definition weather_description_fetcher (code : pyval) : result string :=
  match code with
  | PInt z => Return (default "Unknown conditions"%string (weather_conditions !! z))
  | PBool b => Return (default "Unknown conditions"%string (weather_conditions !! Z.b2z b))
  | PFloat f =>
      Return (match List.find (fun item => PrimFloat.eqb f (Builtin.Z_to_float (fst item)))
                              weather_conditions_items with
              | Some item => snd item
              | None => "Unknown conditions"%string
              end)
  | PNone | PStr _ => Return "Unknown conditions"%string
  | PList _ | PDict _ => Raise TypeError
  end.

Definition geocode_url (location : string) : string :=
  "https://geocoding-api.open-meteo.com/v1/search?name=" +:+ location.

Definition sanitize_keywords : list string :=
  [ "weather"; "forecast"; "tomorrow"; "today"; "is it"; "will it"; "rain";
    "sunny"; "in"; "be"; "outside"; "what"; "is"; "the"; "of" ]%string.

(** Step 3 of [handle_weather], the clean-up of the extracted location:
    [raw_location.lower()], the keyword loop, [.strip().title()]. *)
Definition sanitize (raw_location : pyval) : result string :=
  match Builtin.lower raw_location with
  | Return location =>
      let location := strip_keywords sanitize_keywords location in
      Return (Py.title (Py.strip location))
  | Raise e => Raise e
  end.

Section Methods.
Variable w : world.

Let str := Builtin.str (repr w).

Definition weather_url (latitude longitude : pyval) (is_tomorrow : bool) : string :=
  if is_tomorrow
  then "https://api.open-meteo.com/v1/forecast?"
       +:+ "latitude=" +:+ str latitude +:+ "&longitude=" +:+ str longitude
       +:+ "&daily=temperature_2m_max,temperature_2m_min,weathercode"
       +:+ "&timezone=auto"
  else "https://api.open-meteo.com/v1/forecast?"
       +:+ "latitude=" +:+ str latitude +:+ "&longitude=" +:+ str longitude
       +:+ "&current_weather=true".

(** [geocode_data["results"][0][field]] *)
Definition first_result (geocode_data : pyval) (field : string) : result pyval :=
  match Builtin.getitem_key geocode_data "results" with
  | Return results =>
      match Builtin.getitem_index results 0 with
      | Return entry => Builtin.getitem_key entry field
      | Raise e => Raise e
      end
  | Raise e => Raise e
  end.

(** [daily[field][1]] *)
Definition tomorrow_of (daily : pyval) (field : string) : result pyval :=
  match Builtin.getitem_key daily field with
  | Return series => Builtin.getitem_index series 1
  | Raise e => Raise e
  end.

(** ["hot" if temperature > 30 else "cold" if temperature < 15 else "moderate"] *)
Definition temperature_description (temperature : pyval) : result string :=
  match Builtin.gt temperature 30 with
  | Return true => Return "hot"%string
  | Return false =>
      match Builtin.lt temperature 15 with
      | Return true => Return "cold"%string
      | Return false => Return "moderate"%string
      | Raise e => Raise e
      end
  | Raise e => Raise e
  end.

Definition tomorrow_message (location_name description temp_max temp_min : pyval) : string :=
  "The weather in " +:+ str location_name +:+ " tomorrow will be " +:+ str description +:+ ", "
  +:+ "with a high of " +:+ str temp_max +:+ "°C and a low of " +:+ str temp_min +:+ "°C.".

Definition current_message (location_name weather_description temperature : pyval)
    (temperature_description : string) (windspeed : pyval) : string :=
  "The current weather in " +:+ str location_name +:+ " is " +:+ str weather_description
  +:+ " with a temperature of "
  +:+ str temperature +:+ "°C (" +:+ temperature_description +:+ ") and a windspeed of "
  +:+ str windspeed +:+ " km/h.".

Definition not_found_message (location : string) : string :=
  "Sorry, I couldn't find weather details for '" +:+ location
  +:+ "'. Please try the same or another location.".

(** The body of the inner [try] of the [is_tomorrow] branch. *)
Definition tomorrow_forecast (weather_data location_name : pyval) : M string :=
  try_except
    ( daily <- lift (Builtin.getitem_key weather_data "daily") ;;
      weather_code <- lift (tomorrow_of daily "weathercode") ;;
      temp_max <- lift (tomorrow_of daily "temperature_2m_max") ;;
      temp_min <- lift (tomorrow_of daily "temperature_2m_min") ;;
      description <- call (UtilsDescription weather_code)
                          (utils_weather_description_fetcher w weather_code) ;;
      let message := tomorrow_message location_name description temp_max temp_min in
      ret message )
    is_exception
    (fun e => ret "Sorry, I couldn't fetch tomorrow’s forecast right now."%string).

(** The [else] branch: current conditions. *)
Definition current_conditions (weather_data location_name : pyval) : M string :=
  present <- lift (Builtin.contains "current_weather" weather_data) ;;
  if (present : bool)
  then
    current_weather <- lift (Builtin.getitem_key weather_data "current_weather") ;;
    temperature <- lift (Builtin.getitem_key current_weather "temperature") ;;
    windspeed <- lift (Builtin.getitem_key current_weather "windspeed") ;;
    weather_code <- lift (Builtin.get current_weather "weathercode" (PInt (-1))) ;;
    weather_description <- call (UtilsDescription weather_code)
                                (utils_weather_description_fetcher w weather_code) ;;
    temperature_description <- lift (temperature_description temperature) ;;
    let weather_message :=
      current_message location_name weather_description temperature
                      temperature_description windspeed in
    ret weather_message
  else ret "Sorry, I couldn't fetch the weather details at this time."%string.

(** [requests.get(url)] *)
Definition get (url : string) : M response := call (HttpGet url) (requests_get w url).

Definition fetch_weather (location : string) (is_tomorrow : bool) : M string :=
  try_except
    ( geocode_response <- get (geocode_url location) ;;
      lift (raise_for_status geocode_response) ;;
      geocode_data <- lift (json geocode_response) ;;
      present <- lift (Builtin.contains "results" geocode_data) ;;
      empty <- (if negb present then ret true
                else results <- lift (Builtin.getitem_key geocode_data "results") ;;
                     n <- lift (Builtin.len results) ;;
                     ret (n =? 0)) ;;
      if (empty : bool)
      then ret (not_found_message location)
      else
        latitude <- lift (first_result geocode_data "latitude") ;;
        longitude <- lift (first_result geocode_data "longitude") ;;
        location_name <- lift (first_result geocode_data "name") ;;
        weather_response <- get (weather_url latitude longitude is_tomorrow) ;;
        lift (raise_for_status weather_response) ;;
        weather_data <- lift (json weather_response) ;;
        if is_tomorrow
        then tomorrow_forecast weather_data location_name
        else current_conditions weather_data location_name )
    is_request_exception
    (fun e =>
       match e with
       | RequestException msg =>
           ret ("An error occurred while fetching weather data: " +:+ msg)
       | _ => lift (Raise e)
       end).

Definition handle_weather (user_input : string) : M string :=
  let '(_, is_tomorrow) := parse_weather_input user_input in
  raw_location <- call (ExtractLocation user_input) (extract_location w user_input) ;;
  location <- lift (sanitize raw_location) ;;
  match location with
  | EmptyString =>
      let msg := "Sorry, I couldn't identify the location. Could you rephrase your query?"%string in
      ret msg
  | _ =>
      try_except
        ( response <- fetch_weather location is_tomorrow ;;
          ret response )
        is_exception
        (fun e => ret "An error occurred while fetching the weather. Please try again later."%string)
  end.

End Methods.

End WeatherModule.

(** ** Test doubles *)

Module Stub.

(** Modelled from the spec: [modules.utils.weather_description_fetcher] is
    not among the sources; the specification resolves every
    condition description through the condition-code table, unknown codes
    giving "Unknown conditions". *)
Definition table_description_fetcher (code : pyval) : result pyval :=
  match WeatherModule.weather_description_fetcher code with
  | Return description => Return (PStr description)
  | Raise e => Raise e
  end.

(** A [repr] good enough for the coordinates used below. *)
Definition coordinate_repr (v : pyval) : string :=
  match v with
  | PFloat f =>
      if PrimFloat.eqb f 18.5 then "18.5"
      else if PrimFloat.eqb f 73.8 then "73.8"
      else "nan"
  | PList _ => "[...]"
  | _ => "{...}"
  end.

Definition pune_entry : gmap string pyval :=
  {[ "latitude" := PFloat 18.5; "longitude" := PFloat 73.8; "name" := PStr "Pune" ]}.

Definition pune_geocode : gmap string pyval :=
  {[ "results" := PList [PDict pune_entry] ]}.

Definition pune_daily : gmap string pyval :=
  {[ "temperature_2m_max" := PList [PInt 30; PInt 31; PInt 29];
     "temperature_2m_min" := PList [PInt 21; PInt 22; PInt 20];
     "weathercode" := PList [PInt 3; PInt 61; PInt 0] ]}.

Definition pune_forecast : gmap string pyval := {[ "daily" := PDict pune_daily ]}.

Definition pune_current_weather (temperature : Z) : gmap string pyval :=
  {[ "temperature" := PInt temperature; "windspeed" := PInt 12; "weathercode" := PInt 2 ]}.

Definition pune_current (temperature : Z) : gmap string pyval :=
  {[ "current_weather" := PDict (pune_current_weather temperature) ]}.

(** A network that knows Pune only; [temperature] is the current reading. *)
Definition pune_requests_get (temperature : Z) (url : string) : result response :=
  if String.eqb url "https://geocoding-api.open-meteo.com/v1/search?name=Pune"
  then ok_response (PDict pune_geocode)
  else if String.eqb url
    "https://api.open-meteo.com/v1/forecast?latitude=18.5&longitude=73.8&daily=temperature_2m_max,temperature_2m_min,weathercode&timezone=auto"
  then ok_response (PDict pune_forecast)
  else if String.eqb url
    "https://api.open-meteo.com/v1/forecast?latitude=18.5&longitude=73.8&current_weather=true"
  then ok_response (PDict (pune_current temperature))
  else if String.prefix "https://geocoding-api.open-meteo.com/" url
  then ok_response (PDict ∅)
  else Raise (RequestException "404 Client Error").

(** The extractor answers with the text it is given. *)
Definition echo (user_input : string) : result pyval := Return (PStr user_input).

Definition pune_world (temperature : Z) (extract : string -> result pyval) : world :=
  {| extract_location := extract;
     requests_get := pune_requests_get temperature;
     utils_weather_description_fetcher := table_description_fetcher;
     repr := coordinate_repr |}.

(** The extractor names Pune whatever it is asked. *)
Definition says_pune (user_input : string) : result pyval := Return (PStr "Pune").

(** An extractor that fails, as an LLM call may. *)
Definition failing_extractor (user_input : string) : result pyval :=
  Raise (OtherException "groq.APIConnectionError").

(** A helper that disagrees with the table of the class. *)
Definition sleet_description_fetcher (code : pyval) : result pyval := Return (PStr "Sleet").

Definition sleet_world : world :=
  {| extract_location := says_pune;
     requests_get := pune_requests_get 20;
     utils_weather_description_fetcher := sleet_description_fetcher;
     repr := coordinate_repr |}.

(** A network scripted by two answers, one for the geocoder and one for the
    forecast service. *)
Definition scripted_requests_get (geocoder forecast : result response) (url : string)
    : result response :=
  if String.prefix "https://geocoding-api.open-meteo.com/" url then geocoder else forecast.

Definition scripted_world (extract : string -> result pyval)
    (geocoder forecast : result response) : world :=
  {| extract_location := extract;
     requests_get := scripted_requests_get geocoder forecast;
     utils_weather_description_fetcher := table_description_fetcher;
     repr := coordinate_repr |}.

(** The transport fails before any answer arrives. *)
Definition connection_refused : result response :=
  Raise (RequestException "Connection refused").

(** An answer with an error status. *)
Definition server_error : result response :=
  Return {| raise_for_status := Raise (RequestException "503 Server Error");
            json := Return PNone |}.

(** An extractor that answers [None]. *)
Definition says_none (user_input : string) : result pyval := Return PNone.

(** One entry of the geocoder without its coordinates. *)
Definition nameless_geocode : gmap string pyval :=
  {[ "results" := PList [PDict {[ "name" := PStr "Pune" ]}] ]}.

(** A forecast with a single day. *)
Definition one_day_forecast : gmap string pyval :=
  {[ "daily" := PDict {[ "temperature_2m_max" := PList [PInt 30];
                         "temperature_2m_min" := PList [PInt 21];
                         "weathercode" := PList [PInt 3] ]} ]}.

(** A current-conditions block whose temperature is [null]. *)
Definition null_temperature : gmap string pyval :=
  {[ "temperature" := PNone; "windspeed" := PInt 12; "weathercode" := PInt 2 ]}.

(** A [repr] that also knows the reading 31.5. *)
Definition reading_repr (v : pyval) : string :=
  match v with
  | PFloat f => if PrimFloat.eqb f 31.5 then "31.5" else coordinate_repr v
  | _ => coordinate_repr v
  end.

(** Current conditions with a floating-point temperature. *)
Definition float_current_weather : gmap string pyval :=
  {[ "temperature" := PFloat 31.5; "windspeed" := PInt 12; "weathercode" := PInt 2 ]}.

Definition float_current : gmap string pyval :=
  {[ "current_weather" := PDict float_current_weather ]}.

Definition float_reading_world : world :=
  {| extract_location := says_pune;
     requests_get := scripted_requests_get (ok_response (PDict pune_geocode))
                                           (ok_response (PDict float_current));
     utils_weather_description_fetcher := table_description_fetcher;
     repr := reading_repr |}.

Definition null_temperature_forecast : gmap string pyval :=
  {[ "current_weather" := PDict null_temperature ]}.

End Stub.

(** * Vocabulary of the statements *)

Import WeatherModule.

(** [sub] occurs in [s], at any position. *)
Definition occurs (sub s : string) : Prop :=
  exists before after, s = before +:+ sub +:+ after.

(** [removal token s r]: [r] is [s] with its occurrences of [token] deleted,
    found from left to right and without overlap. *)
Inductive removal (token : string) : string -> string -> Prop :=
| removal_none (s : string) :
    ~ occurs token s ->
    removal token s s
| removal_first (before after rest : string) :
    (forall i, (i < String.length before)%nat ->
               String.prefix token (Py.drop i (before +:+ token +:+ after)) = false) ->
    removal token after rest ->
    removal token (before +:+ token +:+ after) (before +:+ rest).

(** [m], after the calls [evs] have been made. *)
Definition prepend {A} (evs : list event) (m : M A) : M A := (evs ++ calls m, outcome m).

Definition clarification : string :=
  "Sorry, I couldn't identify the location. Could you rephrase your query?".

Definition generic_failure : string :=
  "An error occurred while fetching the weather. Please try again later.".

(** Every call made by [m] satisfies [P]. *)
Definition only (P : event -> Prop) {A} (m : M A) : Prop := Forall P (calls m).

Definition is_http_get (ev : event) : Prop :=
  match ev with HttpGet _ => True | _ => False end.

Definition is_class_description (ev : event) : Prop :=
  match ev with ClassDescription _ => True | _ => False end.

(** What [fetch_weather] does once the place is resolved: the forecast
    request and the rendering, in terms of the three values taken from the
    geocoder's first result. *)
Definition forecast_stage (w : world) (latitude longitude location_name : pyval)
    (is_tomorrow : bool) : M string :=
  (weather_response <- get w (weather_url w latitude longitude is_tomorrow) ;;
   lift (raise_for_status weather_response) ;;
   weather_data <- lift (json weather_response) ;;
   if is_tomorrow
   then tomorrow_forecast w weather_data location_name
   else current_conditions w weather_data location_name)%py.

(** The [except requests.exceptions.RequestException as e] clause. *)
Definition on_request_exception (m : M string) : M string :=
  try_except m is_request_exception
    (fun e =>
       match e with
       | RequestException msg => ret ("An error occurred while fetching weather data: " +:+ msg)
       | _ => lift (Raise e)
       end).

Definition tomorrow_apology : string :=
  "Sorry, I couldn't fetch tomorrow’s forecast right now.".

(** Every character of [s] satisfies [p]. *)
Fixpoint all_chars (p : ascii -> bool) (s : string) : bool :=
  match s with
  | EmptyString => true
  | String c s' => p c && all_chars p s'
  end.

(** [s] is empty or starts with a character that does not satisfy [p]. *)
Definition starts_outside (p : ascii -> bool) (s : string) : Prop :=
  match s with
  | EmptyString => True
  | String c _ => p c = false
  end.

(** The pattern [in ([a-zA-Z\s]+)] matches at the start of [s]: the text
    ["in "] followed by at least one character of the class. *)
Definition matches_here (s : string) : Prop :=
  exists c rest, s = "in " +:+ String c rest /\ location_char c = true.

(** [s] has no leading and no trailing whitespace. *)
Definition trimmed (s : string) : Prop :=
  starts_outside Py.isspace s /\ Py.rstrip s = s.

Definition is_get (ev : event) : bool :=
  match ev with HttpGet _ => true | _ => false end.

Definition is_description (ev : event) : bool :=
  match ev with UtilsDescription _ => true | _ => false end.

Definition is_extraction (ev : event) : bool :=
  match ev with ExtractLocation _ => true | _ => false end.

(** [m] makes at most [n] calls of the kind [p]. *)
Definition at_most (p : event -> bool) (n : nat) {A} (m : M A) : Prop :=
  (length (List.filter p (calls m)) <= n)%nat.

(** [m] makes no call of the kind [p]. *)
Definition silent (p : event -> bool) {A} (m : M A) : Prop :=
  only (fun ev => p ev = false) m.

(** [requests.get(url)], [raise_for_status()] or [json()] raises a
    [RequestException] with text [msg]. *)
Definition request_fails (w : world) (url msg : string) : Prop :=
  requests_get w url = Raise (RequestException msg)
  \/ exists status body,
       requests_get w url = Return {| raise_for_status := status; json := body |}
       /\ (status = Raise (RequestException msg)
           \/ status = Return tt /\ body = Raise (RequestException msg)).

(** A value that Python refuses to compare with a number. *)
Definition not_a_number (v : pyval) : Prop :=
  match v with
  | PNone | PStr _ | PList _ | PDict _ => True
  | PBool _ | PInt _ | PFloat _ => False
  end.

(** The three daily series read by the tomorrow branch. *)
Definition daily_fields : list string :=
  [ "weathercode"; "temperature_2m_max"; "temperature_2m_min" ]%string.

(** The series [field] of [daily] is missing or has no element at index 1. *)
Definition series_too_short (daily : gmap string pyval) (field : string) : Prop :=
  daily !! field = None
  \/ exists series, daily !! field = Some (PList series) /\ (length series < 2)%nat.

(** Every character of [s] is an ASCII character: the text on which the
    string functions of the model are those of Python. *)
Definition ascii_text (s : string) : Prop :=
  all_chars (fun c => (Py.code c <? 128)%N) s = true.

(** * Properties *)

(** ** Substrings and [str.replace] *)

Section StringFacts.

Lemma append_nil (s : string) : "" +:+ s = s.
Proof. reflexivity. Qed.

Lemma append_cons (c : ascii) (a b : string) : String c a +:+ b = String c (a +:+ b).
Proof. reflexivity. Qed.

Lemma length_append (a b : string) :
  String.length (a +:+ b) = (String.length a + String.length b)%nat.
Proof.
  induction a as [|x a IH]; [reflexivity|].
  rewrite append_cons. cbn [String.length]. now rewrite IH.
Qed.

Lemma prefix_cons (a b : ascii) (p s : string) :
  String.prefix (String a p) (String b s)
  = if ascii_dec a b then String.prefix p s else false.
Proof. reflexivity. Qed.

Lemma prefix_iff (p s : string) :
  String.prefix p s = true <-> exists rest, s = p +:+ rest.
Proof.
  revert s; induction p as [|a p IH]; intros s.
  - split; [intros _; now exists s | intros _; now destruct s].
  - destruct s as [|b s].
    + split; [discriminate | intros [rest H]; rewrite append_cons in H; discriminate].
    + rewrite prefix_cons. destruct (ascii_dec a b) as [->|Hab].
      * rewrite IH. split; intros [rest H]; exists rest.
        -- now rewrite append_cons, H.
        -- rewrite append_cons in H. now injection H.
      * split; [discriminate|].
        intros [rest H]. rewrite append_cons in H. injection H as E _. now destruct Hab.
Qed.

Lemma occurs_here (sub rest : string) : occurs sub (sub +:+ rest).
Proof. now exists ""%string, rest. Qed.

Lemma occurs_later (sub s : string) (c : ascii) : occurs sub s -> occurs sub (String c s).
Proof. intros (b & a & ->). now exists (String c b), a. Qed.

Lemma occurs_inv (sub s : string) (c : ascii) :
  occurs sub (String c s) -> String.prefix sub (String c s) = true \/ occurs sub s.
Proof.
  intros ([|x b] & a & H).
  - left. apply prefix_iff. now exists a.
  - right. rewrite append_cons in H. injection H as _ ->. now exists b, a.
Qed.

(** The [in] operator on strings decides occurrence. *)
Lemma contains_iff (sub s : string) : Py.contains sub s = true <-> occurs sub s.
Proof.
  induction s as [|c s IH].
  - cbn [Py.contains]. rewrite orb_false_r, prefix_iff. split.
    + intros [rest H]. exists ""%string, rest. exact H.
    + intros ([|x b] & a & H); [now exists a | rewrite append_cons in H; discriminate].
  - cbn [Py.contains]. rewrite orb_true_iff, IH. split.
    + intros [H|H]; [apply prefix_iff in H as [rest ->]; apply occurs_here
                    | now apply occurs_later].
    + apply occurs_inv.
Qed.

Lemma replace_from_skip (old new passed s : string) :
  Py.replace_from old new (String.length passed) (passed +:+ s)
  = Py.replace_from old new 0 s.
Proof.
  induction passed as [|c passed IH]; [reflexivity|].
  rewrite append_cons. cbn [String.length Py.replace_from]. exact IH.
Qed.

Variables old new : string.

Hypothesis old_nonempty : old <> ""%string.

Lemma replace_nonempty (s : string) : Py.replace s old new = Py.replace_from old new 0 s.
Proof. unfold Py.replace. now destruct old. Qed.

(** An occurrence at the front is replaced and the scan resumes after it. *)
Lemma replace_here (s : string) :
  Py.replace (old +:+ s) old new = new +:+ Py.replace s old new.
Proof.
  rewrite !replace_nonempty.
  assert (P : String.prefix old (old +:+ s) = true) by (apply prefix_iff; now exists s).
  destruct old as [|c o] eqn:E; [now destruct old_nonempty|].
  rewrite append_cons in *. cbn [Py.replace_from]. rewrite P.
  cbn [String.length]. rewrite Nat.sub_succ, Nat.sub_0_r.
  now rewrite replace_from_skip.
Qed.

(** Where no occurrence starts, the character is kept. *)
Lemma replace_next (c : ascii) (s : string) :
  String.prefix old (String c s) = false ->
  Py.replace (String c s) old new = String c (Py.replace s old new).
Proof. intros H. rewrite !replace_nonempty. cbn [Py.replace_from]. now rewrite H. Qed.

(** A string without occurrence is left as it is. *)
Lemma replace_absent (s : string) : ~ occurs old s -> Py.replace s old new = s.
Proof.
  induction s as [|c s IH]; intros H.
  - now rewrite replace_nonempty.
  - rewrite replace_next.
    + rewrite IH; [reflexivity | intros Ho; apply H; now apply occurs_later].
    + destruct (String.prefix old (String c s)) eqn:E; [|reflexivity].
      destruct H. apply prefix_iff in E as [rest ->]. apply occurs_here.
Qed.

End StringFacts.

Section Removal.

Variable old : string.

Lemma remove_from_length (skip : nat) (s : string) :
  (String.length (Py.replace_from old "" skip s) + Nat.min skip (String.length s)
   <= String.length s)%nat.
Proof.
  revert skip; induction s as [|c s IH]; intros skip; [cbn; lia|].
  cbn [Py.replace_from]. destruct skip as [|k].
  - destruct (String.prefix old (String c s)).
    + rewrite append_nil. cbn [String.length].
      specialize (IH (String.length old - 1)%nat). lia.
    + cbn [String.length]. specialize (IH 0%nat). lia.
  - cbn [String.length]. specialize (IH k). lia.
Qed.

Hypothesis old_nonempty : old <> ""%string.

(** Removing [old] takes away at least one whole occurrence, wherever it
    sits in the string. *)
Lemma remove_shrinks (s : string) :
  occurs old s ->
  (String.length (Py.replace s old "") + String.length old <= String.length s)%nat.
Proof.
  rewrite replace_nonempty by exact old_nonempty.
  induction s as [|c s IH]; intros H.
  - destruct H as ([|x b] & a & H); [|rewrite append_cons in H; discriminate].
    rewrite append_nil in H.
    destruct old; [now destruct old_nonempty | rewrite append_cons in H; discriminate].
  - cbn [Py.replace_from]. destruct (String.prefix old (String c s)) eqn:E.
    + apply prefix_iff in E as [rest E].
      assert (L : String.length (String c s) = (String.length old + String.length rest)%nat)
        by now rewrite E, length_append.
      cbn [String.length] in L. rewrite append_nil. cbn [String.length].
      pose proof (remove_from_length (String.length old - 1) s).
      destruct old; [now destruct old_nonempty|]. cbn [String.length] in *. lia.
    + apply occurs_inv in H as [H|H]; [congruence|].
      cbn [String.length]. specialize (IH H). lia.
Qed.

End Removal.

Lemma removal_cons (token s r : string) (c : ascii) :
  String.prefix token (String c s) = false ->
  removal token s r ->
  removal token (String c s) (String c r).
Proof.
  intros Hp H. revert Hp.
  destruct H as [s' Hno | before after rest Hfirst Hrest]; intros Hp.
  - apply removal_none. intros Ho. apply occurs_inv in Ho as [Ho|Ho]; [congruence | now apply Hno].
  - rewrite <- !append_cons. apply removal_first; [|exact Hrest].
    intros [|i] Hi; rewrite append_cons.
    + exact Hp.
    + cbn [Py.drop]. apply Hfirst. cbn [String.length] in Hi. lia.
Qed.

(** [s.replace(token, "")] deletes every such occurrence. *)
Lemma replace_is_removal (token : string) :
  token <> ""%string -> forall s, removal token s (Py.replace s token "").
Proof.
  intros Hne s. remember (String.length s) as n eqn:Hn. revert s Hn.
  induction n as [n IH] using lt_wf_ind. intros [|c s] Hn.
  - rewrite replace_nonempty by exact Hne. apply removal_none.
    intros ([|x b] & a & H); [|rewrite append_cons in H; discriminate].
    destruct token; [now destruct Hne | rewrite append_nil, append_cons in H; discriminate].
  - destruct (String.prefix token (String c s)) eqn:Hp.
    + apply prefix_iff in Hp as [after Hs]. rewrite Hs, replace_here by exact Hne.
      apply (removal_first token "" after); [cbn; lia|].
      apply (IH (String.length after)); [|reflexivity].
      rewrite Hn, Hs, length_append.
      destruct token; [now destruct Hne | cbn [String.length]; lia].
    + rewrite replace_next by assumption. apply removal_cons; [exact Hp|].
      apply (IH (String.length s)); [|reflexivity]. rewrite Hn. cbn [String.length]. lia.
Qed.

Lemma sanitize_keywords_nonempty (keyword : string) :
  keyword ∈ WeatherModule.sanitize_keywords -> keyword <> ""%string.
Proof.
  intros H ->. apply list_elem_of_In in H.
  cbv [WeatherModule.sanitize_keywords In] in H. intuition discriminate.
Qed.

Lemma strip_keywords_cons (keyword : string) (rest : list string) (s : string) :
  strip_keywords (keyword :: rest) s = strip_keywords rest (Py.replace s keyword "").
Proof. reflexivity. Qed.

(** ** [parse_weather_input] *)

(** C8: for every input string, the [is_tomorrow] flag returned by
    [parse_weather_input] is true if and only if the lowercased text
    contains "tomorrow" or "next day". *)
Theorem parse_weather_input_is_tomorrow (user_input : string) :
  snd (parse_weather_input user_input) = true
  <-> occurs "tomorrow" (Py.lower user_input) \/ occurs "next day" (Py.lower user_input).
Proof.
  unfold parse_weather_input. cbn [snd].
  now rewrite orb_true_iff, !contains_iff.
Qed.

(** When the pattern matches, the function returns group 1 as it stands:
    the [strip().title()] call sits inside the [else] branch. *)
Lemma parse_weather_input_match (user_input group1 : string) :
  re_search_in (Py.lower user_input) = Some group1 ->
  fst (parse_weather_input user_input) = group1.
Proof. intros H. unfold parse_weather_input. cbn [fst]. now rewrite H. Qed.

(** C2, evaluated on the code: on "weather in pune" the pattern matches with
    group 1 = "pune", whose trimmed and title-cased form is "Pune", yet the
    location returned is "pune"; on the docstring's own example the function
    returns "in pune tomorrow" where the docstring announces "Pune". *)
Theorem parse_weather_input_returns_raw_group :
  re_search_in (Py.lower "weather in pune") = Some "pune"%string
  /\ Py.title (Py.strip "pune") = "Pune"%string
  /\ parse_weather_input "weather in pune" = ("pune"%string, false)
  /\ parse_weather_input "Will it rain in Pune tomorrow?" = ("in pune tomorrow"%string, true).
Proof. repeat split; vm_compute; reflexivity. Qed.

(** ** The condition table of the class *)

Lemma weather_conditions_keys_nodup : NoDup (WeatherModule.weather_conditions_items.*1).
Proof. apply NoDup_ListNoDup. vm_compute. repeat constructor; cbn; lia. Qed.

(** C7: for every integer code in the condition table,
    [WeatherModule.weather_description_fetcher] returns exactly the mapped
    description, and for every integer code not in the table it returns
    "Unknown conditions". *)
Theorem weather_description_fetcher_table (code : Z) :
  (forall description : string,
      (code, description) ∈ WeatherModule.weather_conditions_items ->
      WeatherModule.weather_description_fetcher (PInt code) = Return description)
  /\ (code ∉ WeatherModule.weather_conditions_items.*1 ->
      WeatherModule.weather_description_fetcher (PInt code) = Return "Unknown conditions"%string).
Proof.
  unfold WeatherModule.weather_description_fetcher, WeatherModule.weather_conditions. split.
  - intros description H.
    apply (elem_of_list_to_map_1 (M := gmap Z)) in H; [|exact weather_conditions_keys_nodup].
    now rewrite H.
  - intros H. apply (not_elem_of_list_to_map_1 (M := gmap Z)) in H. now rewrite H.
Qed.

(** The table, entry by entry. *)
Lemma weather_description_fetcher_entries :
  map (fun code => WeatherModule.weather_description_fetcher (PInt code))
      [0; 1; 2; 3; 45; 48; 51; 53; 55; 61; 63; 65; 71; 73; 75; 80; 81; 82; 95; 96; 4; -1; 100]
  = map Return
      [ "Clear sky"; "Mainly clear"; "Partly cloudy"; "Overcast"; "Foggy";
        "Depositing rime fog"; "Light drizzle"; "Moderate drizzle"; "Dense drizzle";
        "Slight rain"; "Moderate rain"; "Heavy rain"; "Slight snow"; "Moderate snow";
        "Heavy snow"; "Rain showers"; "Moderate rain showers"; "Heavy rain showers";
        "Thunderstorm"; "Thunderstorm with hail";
        "Unknown conditions"; "Unknown conditions"; "Unknown conditions" ]%string.
Proof. vm_compute. reflexivity. Qed.

(** ** Sanitizing the extracted location *)

(** C5: the sanitization step lowercases the extractor output, removes the
    occurrences of each stoplist token in turn, wherever they sit in the
    string and not only as whole words, trims whitespace and title-cases;
    "What is the weather in Pune" becomes "Pune". *)
Theorem sanitize_strips_stoplist :
  let stoplist :=
    [ "weather"; "forecast"; "tomorrow"; "today"; "is it"; "will it"; "rain"; "sunny";
      "in"; "be"; "outside"; "what"; "is"; "the"; "of" ]%string in
  (forall raw : string,
      WeatherModule.sanitize (PStr raw)
      = Return (Py.title (Py.strip (strip_keywords stoplist (Py.lower raw)))))
  /\ (forall (token : string) (rest : list string) (s : string),
         strip_keywords (token :: rest) s = strip_keywords rest (Py.replace s token ""))
  /\ (forall token : string, token ∈ stoplist ->
        (forall s, Py.replace (token +:+ s) token "" = Py.replace s token "")
        /\ (forall c s, String.prefix token (String c s) = false ->
                        Py.replace (String c s) token "" = String c (Py.replace s token ""))
        /\ (forall s, occurs token s ->
                      (String.length (Py.replace s token "") + String.length token
                       <= String.length s)%nat)
        /\ (forall s, ~ occurs token s -> Py.replace s token "" = s)
        /\ (forall s, removal token s (Py.replace s token "")))
  /\ WeatherModule.sanitize (PStr "What is the weather in Pune") = Return "Pune"%string
  /\ WeatherModule.sanitize (PStr "Berlin") = Return "Rl"%string.
Proof.
  intros stoplist. split; [reflexivity|]. split; [reflexivity|]. split.
  - intros token Htoken. apply sanitize_keywords_nonempty in Htoken.
    split; [|split; [|split; [|split]]].
    + intros s. now rewrite replace_here.
    + intros c s. now apply replace_next.
    + intros s. now apply remove_shrinks.
    + intros s. now apply replace_absent.
    + now apply replace_is_removal.
  - split; vm_compute; reflexivity.
Qed.

(** ** The effect monad *)

Section MonadFacts.
Context {A B : Type}.

Lemma bind_return (evs : list event) (a : A) (k : A -> M B) :
  bind (evs, Return a) k = (evs ++ calls (k a), outcome (k a)).
Proof. unfold bind, calls, outcome. now destruct (k a). Qed.

Lemma bind_raise (evs : list event) (e : exn) (k : A -> M B) :
  bind (evs, Raise e) k = (evs, Raise e).
Proof. reflexivity. Qed.

Lemma try_except_return (evs : list event) (a : A) catches handler :
  try_except (evs, Return a) catches handler = (evs, Return a).
Proof. reflexivity. Qed.

Lemma try_except_raise (evs : list event) (e : exn) catches (handler : exn -> M A) :
  try_except (evs, Raise e) catches handler
  = if catches e then (evs ++ calls (handler e), outcome (handler e)) else (evs, Raise e).
Proof. unfold try_except, calls, outcome. now destruct (handler e). Qed.

Lemma calls_bind (m : M A) (k : A -> M B) :
  calls (bind m k)
  = calls m ++ match outcome m with Return a => calls (k a) | Raise _ => [] end.
Proof.
  destruct m as [evs [a|e]].
  - now rewrite bind_return.
  - rewrite bind_raise. cbn. now rewrite app_nil_r.
Qed.

Lemma calls_try_except (body : M A) catches (handler : exn -> M A) :
  calls (try_except body catches handler)
  = calls body ++ match outcome body with
                  | Raise e => if catches e then calls (handler e) else []
                  | Return _ => []
                  end.
Proof.
  destruct body as [evs [a|e]].
  - cbn. now rewrite app_nil_r.
  - rewrite try_except_raise. cbn. destruct (catches e); cbn; [reflexivity | now rewrite app_nil_r].
Qed.

Lemma prepend_nil (m : M A) : prepend [] m = m.
Proof. now destruct m. Qed.

Lemma bind_ret (a : A) (k : A -> M B) : bind (ret a) k = k a.
Proof. unfold ret. rewrite bind_return. now destruct (k a). Qed.

Lemma bind_lift_return (a : A) (k : A -> M B) : bind (lift (Return a)) k = k a.
Proof. apply bind_ret. Qed.

Lemma bind_lift_raise (e : exn) (k : A -> M B) : bind (lift (Raise e)) k = lift (Raise e).
Proof. reflexivity. Qed.

Lemma bind_call_raise (ev : event) (e : exn) (k : A -> M B) :
  bind (call ev (Raise e)) k = call ev (Raise e).
Proof. reflexivity. Qed.

Lemma try_except_prepend (evs : list event) (m : M A) catches handler :
  try_except (prepend evs m) catches handler = prepend evs (try_except m catches handler).
Proof.
  destruct m as [evs' [a|e]]; [reflexivity|].
  unfold prepend. cbn [calls outcome fst snd]. rewrite !try_except_raise.
  destruct (catches e); cbn [calls outcome fst snd]; [|reflexivity].
  now rewrite app_assoc.
Qed.

End MonadFacts.

Lemma bind_call_return {A B} (ev : event) (a : A) (k : A -> M B) :
  bind (call ev (Return a)) k = prepend [ev] (k a).
Proof. unfold call. now rewrite bind_return. Qed.

Lemma bind_prepend {A B} (evs : list event) (m : M A) (k : A -> M B) :
  bind (prepend evs m) k = prepend evs (bind m k).
Proof.
  destruct m as [evs' [a|e]]; unfold prepend; cbn [calls outcome fst snd].
  - rewrite !bind_return. cbn [calls outcome fst snd]. now rewrite app_assoc.
  - reflexivity.
Qed.

(** ** [handle_weather] *)

Section HandleWeather.
Variable w : world.
Variable user_input : string.

Lemma handle_weather_extractor_raises (e : exn) :
  extract_location w user_input = Raise e ->
  handle_weather w user_input = ([ExtractLocation user_input], Raise e).
Proof.
  intros H. unfold handle_weather, call.
  destruct (parse_weather_input user_input) as [guess is_tomorrow]. now rewrite H.
Qed.

Lemma handle_weather_sanitize_raises (raw : pyval) (e : exn) :
  extract_location w user_input = Return raw ->
  sanitize raw = Raise e ->
  handle_weather w user_input = ([ExtractLocation user_input], Raise e).
Proof.
  intros H1 H2. unfold handle_weather, call, lift.
  destruct (parse_weather_input user_input) as [guess is_tomorrow].
  rewrite H1, bind_return, H2. reflexivity.
Qed.

Lemma handle_weather_empty (raw : pyval) :
  extract_location w user_input = Return raw ->
  sanitize raw = Return ""%string ->
  handle_weather w user_input = ([ExtractLocation user_input], Return clarification).
Proof.
  intros H1 H2. unfold handle_weather, call, lift.
  destruct (parse_weather_input user_input) as [guess is_tomorrow].
  rewrite H1, bind_return, H2. reflexivity.
Qed.

(** With a location in hand, the reply is [fetch_weather]'s, or the
    generic failure message when [fetch_weather] raises. *)
Lemma handle_weather_located (raw : pyval) (location : string) :
  extract_location w user_input = Return raw ->
  sanitize raw = Return location ->
  location <> ""%string ->
  handle_weather w user_input
  = (ExtractLocation user_input
       :: calls (fetch_weather w location (snd (parse_weather_input user_input))),
     match outcome (fetch_weather w location (snd (parse_weather_input user_input))) with
     | Return response => Return response
     | Raise _ => Return generic_failure
     end).
Proof.
  intros H1 H2 Hne. unfold handle_weather, call, lift.
  destruct (parse_weather_input user_input) as [guess is_tomorrow].
  cbn [snd]. rewrite H1, bind_return, H2, bind_return.
  destruct location as [|c location]; [now destruct Hne|]. cbv beta iota.
  destruct (fetch_weather w (String c location) is_tomorrow) as [evs [response|e]].
  - rewrite bind_return. cbn. now rewrite !app_nil_r.
  - rewrite bind_raise, try_except_raise. cbn. now rewrite !app_nil_r.
Qed.

Lemma handle_weather_located_outcome (raw : pyval) (location : string) :
  extract_location w user_input = Return raw ->
  sanitize raw = Return location ->
  location <> ""%string ->
  outcome (handle_weather w user_input)
  = match outcome (fetch_weather w location (snd (parse_weather_input user_input))) with
    | Return response => Return response
    | Raise _ => Return generic_failure
    end.
Proof. intros H1 H2 Hne. now rewrite (handle_weather_located raw location H1 H2 Hne). Qed.

End HandleWeather.

(** ** Which calls a computation makes *)

Section Only.
Variable P : event -> Prop.
Context {A B : Type}.

Lemma only_ret (a : A) : only P (ret a).
Proof. constructor. Qed.

Lemma only_lift (r : result A) : only P (lift r).
Proof. constructor. Qed.

Lemma only_call (ev : event) (r : result A) : P ev -> only P (call ev r).
Proof. intros H. now repeat constructor. Qed.

Lemma only_bind (m : M A) (k : A -> M B) :
  only P m -> (forall a, only P (k a)) -> only P (bind m k).
Proof.
  unfold only. intros Hm Hk. rewrite calls_bind. apply Forall_app. split; [exact Hm|].
  destruct (outcome m); [apply Hk | constructor].
Qed.

Lemma only_try_except (body : M A) catches (handler : exn -> M A) :
  only P body -> (forall e, only P (handler e)) -> only P (try_except body catches handler).
Proof.
  unfold only. intros Hb Hh. rewrite calls_try_except. apply Forall_app. split; [exact Hb|].
  destruct (outcome body) as [|e]; [constructor|]. destruct (catches e); [apply Hh | constructor].
Qed.

End Only.

Lemma requested_urls_none (evs : list event) :
  Forall (fun ev => ~ is_http_get ev) evs -> requested_urls evs = [].
Proof.
  induction 1 as [|ev evs H _ IH]; [reflexivity|].
  unfold requested_urls in *. cbn [omap list_omap]. rewrite IH.
  destruct ev; cbn in *; [reflexivity | now destruct H | reflexivity..].
Qed.

Lemma requested_urls_app (evs evs' : list event) :
  requested_urls (evs ++ evs') = requested_urls evs ++ requested_urls evs'.
Proof. apply omap_app. Qed.

(** Steps through binds, handlers and branches. *)
Ltac only_steps :=
  repeat first
    [ apply only_ret
    | apply only_lift
    | apply only_call; cbn; tauto
    | apply only_bind; [|intros ?]
    | apply only_try_except; [|intros ?]
    | match goal with
      | |- only _ (if ?b then _ else _) => destruct b
      | |- only _ (match ?e with _ => _ end) => destruct e
      | |- only _ (let _ := _ in _) => cbv zeta
      end ].

Section FetchWeather.
Variable w : world.

Lemma tomorrow_forecast_only (P : event -> Prop) (weather_data location_name : pyval) :
  (forall code, P (UtilsDescription code)) ->
  only P (tomorrow_forecast w weather_data location_name).
Proof. intros HP. unfold tomorrow_forecast. only_steps. apply only_call, HP. Qed.

Lemma current_conditions_only (P : event -> Prop) (weather_data location_name : pyval) :
  (forall code, P (UtilsDescription code)) ->
  only P (current_conditions w weather_data location_name).
Proof. intros HP. unfold current_conditions. only_steps; apply only_call, HP. Qed.

Lemma fetch_weather_only (P : event -> Prop) (location : string) (is_tomorrow : bool) :
  (forall code, P (UtilsDescription code)) -> (forall url, P (HttpGet url)) ->
  only P (fetch_weather w location is_tomorrow).
Proof.
  intros HU HG. unfold fetch_weather, get. only_steps; apply only_call; auto.
Qed.

Lemma handle_weather_only (P : event -> Prop) (user_input : string) :
  (forall code, P (UtilsDescription code)) -> (forall url, P (HttpGet url)) ->
  (forall text, P (ExtractLocation text)) ->
  only P (handle_weather w user_input).
Proof.
  intros HU HG HE. unfold handle_weather.
  destruct (parse_weather_input user_input) as [guess is_tomorrow].
  only_steps; apply only_call; auto.
Qed.

End FetchWeather.

(** ** [fetch_weather] *)

Lemma lookup_first {X} (x : X) (l : list X) : (x :: l) !! 0%nat = Some x.
Proof. reflexivity. Qed.

Lemma len_nonempty {X} (x : X) (l : list X) : (Z.of_nat (length (x :: l)) =? 0) = false.
Proof. reflexivity. Qed.

Ltac builtins :=
  unfold ok_response, first_result, tomorrow_of;
  cbn [raise_for_status json
       Builtin.contains Builtin.getitem_key Builtin.getitem_index Builtin.len Builtin.get
       negb is_request_exception is_exception].

Ltac use_facts :=
  repeat match goal with
         | H : ?lhs = _ |- context [?lhs] => rewrite H
         end;
  rewrite ?lookup_first, ?len_nonempty.

Ltac monad_step :=
  first [ rewrite bind_lift_return | rewrite bind_lift_raise | rewrite bind_ret
        | rewrite bind_call_return | rewrite bind_call_raise
        | rewrite bind_prepend | rewrite try_except_prepend ];
  cbv beta.

Ltac exec := repeat (progress (builtins; use_facts; repeat monad_step)).

Section FetchWeatherStages.
Variable w : world.
Variables (location : string) (is_tomorrow : bool).

Lemma fetch_weather_unreachable (msg : string) :
  requests_get w (geocode_url location) = Raise (RequestException msg) ->
  fetch_weather w location is_tomorrow
  = ([HttpGet (geocode_url location)],
     Return ("An error occurred while fetching weather data: " +:+ msg)).
Proof. intros H. unfold fetch_weather, get. exec. reflexivity. Qed.

Variable geo : gmap string pyval.
Hypothesis geocoded : requests_get w (geocode_url location) = ok_response (PDict geo).

Lemma fetch_weather_no_results :
  geo !! "results" = None \/ geo !! "results" = Some (PList []) ->
  fetch_weather w location is_tomorrow
  = ([HttpGet (geocode_url location)], Return (not_found_message location)).
Proof. intros [H|H]; unfold fetch_weather, get; exec; reflexivity. Qed.

Variables (entry : gmap string pyval) (more : list pyval).
Variables latitude longitude location_name : pyval.
Hypothesis first : geo !! "results" = Some (PList (PDict entry :: more)).
Hypothesis has_latitude : entry !! "latitude" = Some latitude.
Hypothesis has_longitude : entry !! "longitude" = Some longitude.
Hypothesis has_name : entry !! "name" = Some location_name.

Lemma fetch_weather_located :
  fetch_weather w location is_tomorrow
  = prepend [HttpGet (geocode_url location)]
      (on_request_exception (forecast_stage w latitude longitude location_name is_tomorrow)).
Proof.
  unfold fetch_weather. unfold get at 1. exec. reflexivity.
Qed.

End FetchWeatherStages.

Lemma on_request_exception_prepend (evs : list event) (m : M string) :
  on_request_exception (prepend evs m) = prepend evs (on_request_exception m).
Proof. apply try_except_prepend. Qed.

Lemma on_request_exception_ret (reply : string) :
  on_request_exception (ret reply) = ret reply.
Proof. reflexivity. Qed.

Section ForecastStage.
Variable w : world.
Variables latitude longitude location_name : pyval.
Variable forecast : gmap string pyval.

Lemma forecast_stage_received (is_tomorrow : bool) :
  requests_get w (weather_url w latitude longitude is_tomorrow) = ok_response (PDict forecast) ->
  forecast_stage w latitude longitude location_name is_tomorrow
  = prepend [HttpGet (weather_url w latitude longitude is_tomorrow)]
      (if is_tomorrow
       then tomorrow_forecast w (PDict forecast) location_name
       else current_conditions w (PDict forecast) location_name).
Proof. intros H. unfold forecast_stage, get. exec. reflexivity. Qed.

(** The tomorrow branch on a well-formed body: index 1 of each daily
    series is read, the imported helper is asked for the description, and
    whatever it raises is absorbed by the inner [except Exception]. *)
Lemma tomorrow_forecast_rendered
    (daily : gmap string pyval) (codes highs lows : list pyval) (code high low : pyval) :
  forecast !! "daily" = Some (PDict daily) ->
  daily !! "weathercode" = Some (PList codes) -> codes !! 1%nat = Some code ->
  daily !! "temperature_2m_max" = Some (PList highs) -> highs !! 1%nat = Some high ->
  daily !! "temperature_2m_min" = Some (PList lows) -> lows !! 1%nat = Some low ->
  tomorrow_forecast w (PDict forecast) location_name
  = prepend [UtilsDescription code]
      (match utils_weather_description_fetcher w code with
       | Return description => ret (tomorrow_message w location_name description high low)
       | Raise _ => ret tomorrow_apology
       end).
Proof.
  intros Hd Hc Hc1 Hh Hh1 Hl Hl1. unfold tomorrow_forecast. exec.
  destruct (utils_weather_description_fetcher w code) as [description|e]; exec; reflexivity.
Qed.

(** The current-conditions branch on a well-formed body. *)
Lemma current_conditions_rendered
    (current_weather : gmap string pyval) (temperature windspeed : pyval) :
  forecast !! "current_weather" = Some (PDict current_weather) ->
  current_weather !! "temperature" = Some temperature ->
  current_weather !! "windspeed" = Some windspeed ->
  let weather_code := default (PInt (-1)) (current_weather !! "weathercode") in
  current_conditions w (PDict forecast) location_name
  = prepend [UtilsDescription weather_code]
      (match utils_weather_description_fetcher w weather_code with
       | Return weather_description =>
           match temperature_description temperature with
           | Return class =>
               ret (current_message w location_name weather_description temperature
                                    class windspeed)
           | Raise e => lift (Raise e)
           end
       | Raise e => lift (Raise e)
       end).
Proof.
  intros Hc Ht Hw weather_code. unfold current_conditions. exec.
  replace (match current_weather !! "weathercode" with
           | Some x => x
           | None => PInt (-1)
           end) with weather_code by reflexivity.
  destruct (utils_weather_description_fetcher w weather_code) as [description|e]; exec;
    [|reflexivity].
  destruct (temperature_description temperature) as [class|e]; exec; reflexivity.
Qed.

End ForecastStage.

(** The classification of an integer or floating-point reading. *)
Lemma temperature_description_int (t : Z) :
  temperature_description (PInt t)
  = Return (if 30 <? t then "hot"%string
            else if t <? 15 then "cold"%string else "moderate"%string).
Proof.
  unfold temperature_description. cbn [Builtin.gt Builtin.lt].
  now destruct (30 <? t), (t <? 15).
Qed.

Lemma temperature_description_float (f : float) :
  temperature_description (PFloat f)
  = Return (if PrimFloat.ltb 30 f then "hot"%string
            else if PrimFloat.ltb f 15 then "cold"%string else "moderate"%string).
Proof.
  unfold temperature_description. cbn [Builtin.gt Builtin.lt].
  change (Builtin.Z_to_float 30) with 30%float.
  change (Builtin.Z_to_float 15) with 15%float.
  now destruct (PrimFloat.ltb 30 f), (PrimFloat.ltb f 15).
Qed.

Lemma forecast_stage_urls (w : world) (latitude longitude location_name : pyval)
    (is_tomorrow : bool) :
  requested_urls
    (calls (on_request_exception
              (forecast_stage w latitude longitude location_name is_tomorrow)))
  = [weather_url w latitude longitude is_tomorrow].
Proof.
  unfold forecast_stage, get.
  destruct (requests_get w (weather_url w latitude longitude is_tomorrow)) as [resp|e].
  - rewrite bind_call_return, on_request_exception_prepend.
    unfold prepend. cbn [calls fst].
    rewrite requested_urls_app, (requested_urls_none (calls _)).
    + reflexivity.
    + change (only (fun ev => ~ is_http_get ev)
                (on_request_exception
                   (lift (raise_for_status resp) ;;
                    weather_data <- lift (json resp) ;;
                    if is_tomorrow
                    then tomorrow_forecast w weather_data location_name
                    else current_conditions w weather_data location_name)%py)).
      unfold on_request_exception. only_steps;
        first [ apply tomorrow_forecast_only | apply current_conditions_only ]; now intros ?.
  - rewrite bind_call_raise. unfold on_request_exception, call. rewrite try_except_raise.
    destruct e; reflexivity.
Qed.

(** ** The claims about [handle_weather] and [fetch_weather] *)

(** C1, as amended: [handle_weather] answers with a plain string whenever
    [extract_location] returns a string.  An empty sanitized location gives
    the clarification message.  A [RequestException] raised by the geocoding
    request or by the forecast request, in [requests.get],
    [raise_for_status] or [json], is turned by [fetch_weather] into "An
    error occurred while fetching weather data: <e>", and no
    [RequestException] ever leaves [fetch_weather].  What [fetch_weather]
    returns is the reply, and whatever it raises is turned by
    [handle_weather] into the generic failure message.  An exception raised
    by [extract_location] is not caught: the call precedes the [try] block
    and the exception reaches the caller. *)
Theorem handle_weather_exception_boundary (w : world) (user_input : string) :
  (forall raw : string,
      extract_location w user_input = Return (PStr raw) ->
      exists reply, outcome (handle_weather w user_input) = Return reply)
  /\ (forall raw : pyval,
         extract_location w user_input = Return raw ->
         sanitize raw = Return ""%string ->
         outcome (handle_weather w user_input)
         = Return "Sorry, I couldn't identify the location. Could you rephrase your query?"%string)
  /\ (forall (raw : pyval) (location : string),
         extract_location w user_input = Return raw ->
         sanitize raw = Return location ->
         location <> ""%string ->
         (forall reply : string,
             outcome (fetch_weather w location (snd (parse_weather_input user_input)))
             = Return reply ->
             outcome (handle_weather w user_input) = Return reply)
         /\ (forall e : exn,
                outcome (fetch_weather w location (snd (parse_weather_input user_input)))
                = Raise e ->
                outcome (handle_weather w user_input)
                = Return "An error occurred while fetching the weather. Please try again later."%string))
  /\ (forall (location : string) (is_tomorrow : bool) (msg : string),
         request_fails w (geocode_url location) msg ->
         outcome (fetch_weather w location is_tomorrow)
         = Return ("An error occurred while fetching weather data: " +:+ msg))
  /\ (forall (location : string) (is_tomorrow : bool) (msg : string)
             (geo entry : gmap string pyval) (more : list pyval)
             (latitude longitude location_name : pyval),
         requests_get w (geocode_url location) = ok_response (PDict geo) ->
         geo !! "results" = Some (PList (PDict entry :: more)) ->
         entry !! "latitude" = Some latitude ->
         entry !! "longitude" = Some longitude ->
         entry !! "name" = Some location_name ->
         request_fails w (weather_url w latitude longitude is_tomorrow) msg ->
         outcome (fetch_weather w location is_tomorrow)
         = Return ("An error occurred while fetching weather data: " +:+ msg))
  /\ (forall (location : string) (is_tomorrow : bool) (msg : string),
         outcome (fetch_weather w location is_tomorrow) <> Raise (RequestException msg))
  /\ (forall e : exn,
         extract_location w user_input = Raise e ->
         handle_weather w user_input = ([ExtractLocation user_input], Raise e)).
Proof.
  split; [|split; [|split; [|split; [|split; [|split]]]]].
  - intros raw H.
    destruct (sanitize (PStr raw)) as [location|e] eqn:Hs; [|discriminate].
    destruct location as [|c location].
    + rewrite (handle_weather_empty w user_input _ H Hs). now eexists.
    + rewrite (handle_weather_located_outcome w user_input _ _ H Hs); [|discriminate].
      destruct (outcome _); now eexists.
  - intros raw H Hs. now rewrite (handle_weather_empty w user_input raw H Hs).
  - intros raw location H Hs Hne. split.
    + intros reply Hf.
      now rewrite (handle_weather_located_outcome w user_input _ _ H Hs Hne), Hf.
    + intros e Hf.
      now rewrite (handle_weather_located_outcome w user_input _ _ H Hs Hne), Hf.
  - intros location is_tomorrow msg [H | (status & body & H & [-> | [-> ->]])];
      unfold fetch_weather, get; exec; reflexivity.
  - intros location is_tomorrow msg geo entry more latitude longitude location_name
           Hg Hr Hlat Hlon Hname Hfail.
    rewrite (fetch_weather_located w location is_tomorrow geo Hg entry more _ _ _
               Hr Hlat Hlon Hname).
    unfold on_request_exception, forecast_stage, get.
    destruct Hfail as [H | (status & body & H & [-> | [-> ->]])]; exec; reflexivity.
  - intros location is_tomorrow msg. unfold fetch_weather.
    match goal with |- context [try_except ?body _ _] => destruct body as [evs [reply|e]] end.
    + discriminate.
    + rewrite try_except_raise. destruct e; discriminate.
  - apply handle_weather_extractor_raises.
Qed.

(** C1 as stated fails: the extractor raises and so does [handle_weather]. *)
Lemma handle_weather_lets_extractor_failure_escape :
  handle_weather (Stub.pune_world 20 Stub.failing_extractor) "Will it rain in Pune tomorrow?"
  = ([ExtractLocation "Will it rain in Pune tomorrow?"],
     Raise (OtherException "groq.APIConnectionError")).
Proof. vm_compute. reflexivity. Qed.

(** C3: when the sanitized location is the empty string, [handle_weather]
    returns the clarification message and no request is sent: the only call
    made is the one to the extractor. *)
Theorem handle_weather_empty_location (w : world) (user_input : string) (raw : pyval) :
  extract_location w user_input = Return raw ->
  sanitize raw = Return ""%string ->
  outcome (handle_weather w user_input)
  = Return "Sorry, I couldn't identify the location. Could you rephrase your query?"%string
  /\ requested_urls (calls (handle_weather w user_input)) = []
  /\ calls (handle_weather w user_input) = [ExtractLocation user_input].
Proof.
  intros H Hs. rewrite (handle_weather_empty w user_input raw H Hs). now repeat split.
Qed.

Lemma handle_weather_empty_location_witness :
  outcome (handle_weather (Stub.pune_world 20 Stub.echo) "What is the weather")
  = Return "Sorry, I couldn't identify the location. Could you rephrase your query?"%string
  /\ requested_urls (calls (handle_weather (Stub.pune_world 20 Stub.echo) "What is the weather")) = []
  /\ calls (handle_weather (Stub.pune_world 20 Stub.echo) "What is the weather")
     = [ExtractLocation "What is the weather"].
Proof.
  apply (handle_weather_empty_location (Stub.pune_world 20 Stub.echo) "What is the weather"
           (PStr "What is the weather")); vm_compute; reflexivity.
Defined.

(** C4: for "Will it rain in Pune tomorrow?", with a geocoder whose first
    result is latitude 18.5, longitude 73.8, name "Pune" and daily series
    holding max 31, min 22 and weather code 61 at index 1, [handle_weather]
    answers "The weather in Pune tomorrow will be Slight rain, with a high
    of 31°C and a low of 22°C."  The extractor is assumed to return a
    location that survives sanitization, and the imported description
    helper to map 61 to "Slight rain". *)
Theorem handle_weather_pune_tomorrow
    (w : world) (raw : pyval) (location : string)
    (geo entry forecast daily : gmap string pyval) (more codes highs lows : list pyval) :
  extract_location w "Will it rain in Pune tomorrow?" = Return raw ->
  sanitize raw = Return location ->
  location <> ""%string ->
  requests_get w (geocode_url location) = ok_response (PDict geo) ->
  geo !! "results" = Some (PList (PDict entry :: more)) ->
  entry !! "latitude" = Some (PFloat 18.5) ->
  entry !! "longitude" = Some (PFloat 73.8) ->
  entry !! "name" = Some (PStr "Pune") ->
  requests_get w (weather_url w (PFloat 18.5) (PFloat 73.8) true)
  = ok_response (PDict forecast) ->
  forecast !! "daily" = Some (PDict daily) ->
  daily !! "temperature_2m_max" = Some (PList highs) -> highs !! 1%nat = Some (PInt 31) ->
  daily !! "temperature_2m_min" = Some (PList lows) -> lows !! 1%nat = Some (PInt 22) ->
  daily !! "weathercode" = Some (PList codes) -> codes !! 1%nat = Some (PInt 61) ->
  utils_weather_description_fetcher w (PInt 61) = Return (PStr "Slight rain") ->
  handle_weather w "Will it rain in Pune tomorrow?"
  = ([ ExtractLocation "Will it rain in Pune tomorrow?";
       HttpGet (geocode_url location);
       HttpGet (weather_url w (PFloat 18.5) (PFloat 73.8) true);
       UtilsDescription (PInt 61) ],
     Return "The weather in Pune tomorrow will be Slight rain, with a high of 31°C and a low of 22°C."%string).
Proof.
  intros Hx Hs Hne Hg Hr Hlat Hlon Hname Hf Hd Hh Hh1 Hl Hl1 Hc Hc1 Hdesc.
  rewrite (handle_weather_located w _ raw location Hx Hs Hne).
  replace (snd (parse_weather_input "Will it rain in Pune tomorrow?")) with true
    by (vm_compute; reflexivity).
  rewrite (fetch_weather_located w location true geo Hg entry more _ _ _ Hr Hlat Hlon Hname).
  rewrite (forecast_stage_received w _ _ _ forecast true Hf).
  rewrite (tomorrow_forecast_rendered w _ forecast daily codes highs lows _ _ _
             Hd Hc Hc1 Hh Hh1 Hl Hl1).
  rewrite Hdesc. reflexivity.
Qed.

Lemma handle_weather_pune_tomorrow_witness :
  handle_weather (Stub.pune_world 20 Stub.says_pune) "Will it rain in Pune tomorrow?"
  = ([ ExtractLocation "Will it rain in Pune tomorrow?";
       HttpGet (geocode_url "Pune");
       HttpGet (weather_url (Stub.pune_world 20 Stub.says_pune) (PFloat 18.5) (PFloat 73.8) true);
       UtilsDescription (PInt 61) ],
     Return "The weather in Pune tomorrow will be Slight rain, with a high of 31°C and a low of 22°C."%string).
Proof.
  apply (handle_weather_pune_tomorrow (Stub.pune_world 20 Stub.says_pune)
           (PStr "Pune") "Pune" Stub.pune_geocode Stub.pune_entry Stub.pune_forecast
           Stub.pune_daily [] [PInt 3; PInt 61; PInt 0] [PInt 30; PInt 31; PInt 29]
           [PInt 21; PInt 22; PInt 20]);
    first [ discriminate | vm_compute; reflexivity ].
Defined.

(** C6: when the geocoding response has no "results" key or an empty
    results array, [fetch_weather] returns the "couldn't find weather
    details" message and sends no forecast request; otherwise the latitude,
    longitude and name of the first results entry are the ones used: the
    rest of the run is [forecast_stage] on these three values, and the
    forecast URL is built from this latitude and longitude. *)
Theorem fetch_weather_geocoding
    (w : world) (location : string) (is_tomorrow : bool) (geo : gmap string pyval) :
  requests_get w (geocode_url location) = ok_response (PDict geo) ->
  (geo !! "results" = None \/ geo !! "results" = Some (PList []) ->
   fetch_weather w location is_tomorrow
   = ([HttpGet (geocode_url location)],
      Return ("Sorry, I couldn't find weather details for '" +:+ location
              +:+ "'. Please try the same or another location.")))
  /\ (forall (entry : gmap string pyval) (more : list pyval)
             (latitude longitude location_name : pyval),
         geo !! "results" = Some (PList (PDict entry :: more)) ->
         entry !! "latitude" = Some latitude ->
         entry !! "longitude" = Some longitude ->
         entry !! "name" = Some location_name ->
         fetch_weather w location is_tomorrow
         = prepend [HttpGet (geocode_url location)]
             (on_request_exception
                (forecast_stage w latitude longitude location_name is_tomorrow))
         /\ requested_urls (calls (fetch_weather w location is_tomorrow))
            = [geocode_url location; weather_url w latitude longitude is_tomorrow]).
Proof.
  intros Hg. split.
  - apply fetch_weather_no_results, Hg.
  - intros entry more latitude longitude location_name Hr Hlat Hlon Hname.
    rewrite (fetch_weather_located w location is_tomorrow geo Hg entry more _ _ _
               Hr Hlat Hlon Hname).
    split; [reflexivity|].
    unfold prepend. cbn [calls fst]. rewrite requested_urls_app, forecast_stage_urls.
    reflexivity.
Qed.

Lemma fetch_weather_geocoding_witness :
  fetch_weather (Stub.pune_world 20 Stub.says_pune) "Delhi" true
  = ([HttpGet (geocode_url "Delhi")],
     Return "Sorry, I couldn't find weather details for 'Delhi'. Please try the same or another location."%string)
  /\ requested_urls (calls (fetch_weather (Stub.pune_world 20 Stub.says_pune) "Pune" true))
     = [ "https://geocoding-api.open-meteo.com/v1/search?name=Pune";
         "https://api.open-meteo.com/v1/forecast?latitude=18.5&longitude=73.8&daily=temperature_2m_max,temperature_2m_min,weathercode&timezone=auto" ]%string.
Proof.
  split.
  - apply (proj1 (fetch_weather_geocoding (Stub.pune_world 20 Stub.says_pune)
                    "Delhi" true ∅ eq_refl)).
    left. reflexivity.
  - apply (proj2 (fetch_weather_geocoding (Stub.pune_world 20 Stub.says_pune)
                    "Pune" true Stub.pune_geocode eq_refl)
             Stub.pune_entry [] (PFloat 18.5) (PFloat 73.8) (PStr "Pune"));
      vm_compute; reflexivity.
Defined.

(** C9: in the current-conditions message the temperature is "hot" when
    strictly greater than 30, "cold" when strictly less than 15 and
    "moderate" otherwise (32 is hot, 10 is cold, 20 is moderate), for an
    integer reading as for a floating-point one, and the message reads "The
    current weather in {name} is {description} with a temperature of
    {temp}°C ({class}) and a windspeed of {wind} km/h." *)
Theorem fetch_weather_current_conditions
    (w : world) (location : string)
    (geo entry forecast current_weather : gmap string pyval) (more : list pyval)
    (latitude longitude location_name windspeed description : pyval) :
  requests_get w (geocode_url location) = ok_response (PDict geo) ->
  geo !! "results" = Some (PList (PDict entry :: more)) ->
  entry !! "latitude" = Some latitude ->
  entry !! "longitude" = Some longitude ->
  entry !! "name" = Some location_name ->
  requests_get w (weather_url w latitude longitude false) = ok_response (PDict forecast) ->
  forecast !! "current_weather" = Some (PDict current_weather) ->
  current_weather !! "windspeed" = Some windspeed ->
  utils_weather_description_fetcher w (default (PInt (-1)) (current_weather !! "weathercode"))
  = Return description ->
  (forall temperature : Z,
      current_weather !! "temperature" = Some (PInt temperature) ->
      outcome (fetch_weather w location false)
      = Return ("The current weather in " +:+ Builtin.str (repr w) location_name
                +:+ " is " +:+ Builtin.str (repr w) description
                +:+ " with a temperature of " +:+ Builtin.Z_to_string temperature
                +:+ "°C ("
                +:+ (if 30 <? temperature then "hot"
                     else if temperature <? 15 then "cold" else "moderate")
                +:+ ") and a windspeed of " +:+ Builtin.str (repr w) windspeed +:+ " km/h."))
  /\ (forall temperature : float,
         current_weather !! "temperature" = Some (PFloat temperature) ->
         outcome (fetch_weather w location false)
         = Return ("The current weather in " +:+ Builtin.str (repr w) location_name
                   +:+ " is " +:+ Builtin.str (repr w) description
                   +:+ " with a temperature of " +:+ repr w (PFloat temperature)
                   +:+ "°C ("
                   +:+ (if PrimFloat.ltb 30 temperature then "hot"
                        else if PrimFloat.ltb temperature 15 then "cold" else "moderate")
                   +:+ ") and a windspeed of " +:+ Builtin.str (repr w) windspeed
                   +:+ " km/h."))
  /\ temperature_description (PInt 32) = Return "hot"%string
  /\ temperature_description (PInt 10) = Return "cold"%string
  /\ temperature_description (PInt 20) = Return "moderate"%string
  /\ temperature_description (PFloat 32) = Return "hot"%string
  /\ temperature_description (PFloat 10) = Return "cold"%string
  /\ temperature_description (PFloat 20) = Return "moderate"%string
  /\ temperature_description (PFloat 30.5) = Return "hot"%string
  /\ temperature_description (PFloat 14.5) = Return "cold"%string
  /\ temperature_description (PFloat 30) = Return "moderate"%string
  /\ temperature_description (PFloat 15) = Return "moderate"%string.
Proof.
  intros Hg Hr Hlat Hlon Hname Hf Hc Hw Hdesc.
  rewrite (fetch_weather_located w location false geo Hg entry more _ _ _ Hr Hlat Hlon Hname).
  rewrite (forecast_stage_received w _ _ _ forecast false Hf).
  split; [|split; [|repeat split]].
  - intros temperature Ht.
    rewrite (current_conditions_rendered w _ forecast current_weather _ _ Hc Ht Hw).
    rewrite Hdesc, temperature_description_int. reflexivity.
  - intros temperature Ht.
    rewrite (current_conditions_rendered w _ forecast current_weather _ _ Hc Ht Hw).
    rewrite Hdesc, temperature_description_float. reflexivity.
Qed.

Lemma fetch_weather_current_conditions_witness :
  outcome (fetch_weather Stub.float_reading_world "Pune" false)
  = Return "The current weather in Pune is Partly cloudy with a temperature of 31.5°C (hot) and a windspeed of 12 km/h."%string
  /\ outcome (fetch_weather (Stub.pune_world 32 Stub.says_pune) "Pune" false)
     = Return "The current weather in Pune is Partly cloudy with a temperature of 32°C (hot) and a windspeed of 12 km/h."%string.
Proof.
  split.
  - refine (proj1 (proj2 (fetch_weather_current_conditions Stub.float_reading_world "Pune"
                            Stub.pune_geocode Stub.pune_entry Stub.float_current
                            Stub.float_current_weather [] (PFloat 18.5) (PFloat 73.8)
                            (PStr "Pune") (PInt 12) (PStr "Partly cloudy")
                            _ _ _ _ _ _ _ _ _)) 31.5%float _);
      vm_compute; reflexivity.
  - refine (proj1 (fetch_weather_current_conditions (Stub.pune_world 32 Stub.says_pune) "Pune"
                     Stub.pune_geocode Stub.pune_entry (Stub.pune_current 32)
                     (Stub.pune_current_weather 32) [] (PFloat 18.5) (PFloat 73.8)
                     (PStr "Pune") (PInt 12) (PStr "Partly cloudy")
                     _ _ _ _ _ _ _ _ _) 32 _);
      vm_compute; reflexivity.
Defined.

(** The other two classes, end to end. *)
Lemma fetch_weather_cold_and_moderate :
  outcome (fetch_weather (Stub.pune_world 10 Stub.says_pune) "Pune" false)
  = Return "The current weather in Pune is Partly cloudy with a temperature of 10°C (cold) and a windspeed of 12 km/h."%string
  /\ outcome (fetch_weather (Stub.pune_world 20 Stub.says_pune) "Pune" false)
     = Return "The current weather in Pune is Partly cloudy with a temperature of 20°C (moderate) and a windspeed of 12 km/h."%string.
Proof. split; vm_compute; reflexivity. Qed.

(** C10: no run of [fetch_weather] or [handle_weather] calls the static
    method [WeatherModule.weather_description_fetcher]; in both messages the
    description is what the function imported from [modules.utils] returns
    for the weather code, whatever that function is. *)
Theorem class_table_never_consulted (w : world) :
  (forall (location : string) (is_tomorrow : bool),
      only (fun ev => ~ is_class_description ev) (fetch_weather w location is_tomorrow))
  /\ (forall user_input : string,
         only (fun ev => ~ is_class_description ev) (handle_weather w user_input))
  /\ (forall (forecast daily : gmap string pyval) (codes highs lows : list pyval)
             (location_name code high low : pyval),
         forecast !! "daily" = Some (PDict daily) ->
         daily !! "weathercode" = Some (PList codes) -> codes !! 1%nat = Some code ->
         daily !! "temperature_2m_max" = Some (PList highs) -> highs !! 1%nat = Some high ->
         daily !! "temperature_2m_min" = Some (PList lows) -> lows !! 1%nat = Some low ->
         tomorrow_forecast w (PDict forecast) location_name
         = prepend [UtilsDescription code]
             (match utils_weather_description_fetcher w code with
              | Return description =>
                  ret (tomorrow_message w location_name description high low)
              | Raise _ => ret "Sorry, I couldn't fetch tomorrow’s forecast right now."%string
              end))
  /\ (forall (forecast current_weather : gmap string pyval)
             (location_name temperature windspeed : pyval),
         forecast !! "current_weather" = Some (PDict current_weather) ->
         current_weather !! "temperature" = Some temperature ->
         current_weather !! "windspeed" = Some windspeed ->
         current_conditions w (PDict forecast) location_name
         = prepend [UtilsDescription (default (PInt (-1)) (current_weather !! "weathercode"))]
             (match utils_weather_description_fetcher w
                      (default (PInt (-1)) (current_weather !! "weathercode")) with
              | Return weather_description =>
                  match temperature_description temperature with
                  | Return class =>
                      ret (current_message w location_name weather_description temperature
                                           class windspeed)
                  | Raise e => lift (Raise e)
                  end
              | Raise e => lift (Raise e)
              end)).
Proof.
  split; [|split; [|split]].
  - intros location is_tomorrow. apply fetch_weather_only; intros ? [].
  - intros user_input. apply handle_weather_only; intros ? [].
  - intros. now apply tomorrow_forecast_rendered with (daily := daily) (codes := codes)
                                                    (highs := highs) (lows := lows).
  - intros. now apply current_conditions_rendered.
Qed.

(** With a helper that answers "Sleet" to everything, the reply says
    "Sleet" for code 61, for which the table of the class has "Slight rain". *)
Lemma imported_helper_decides_description :
  WeatherModule.weather_description_fetcher (PInt 61) = Return "Slight rain"%string
  /\ handle_weather Stub.sleet_world "Will it rain in Pune tomorrow?"
     = ([ ExtractLocation "Will it rain in Pune tomorrow?";
          HttpGet "https://geocoding-api.open-meteo.com/v1/search?name=Pune";
          HttpGet "https://api.open-meteo.com/v1/forecast?latitude=18.5&longitude=73.8&daily=temperature_2m_max,temperature_2m_min,weathercode&timezone=auto";
          UtilsDescription (PInt 61) ],
        Return "The weather in Pune tomorrow will be Sleet, with a high of 31°C and a low of 22°C."%string).
Proof. split; vm_compute; reflexivity. Qed.

(** A failure inside [fetch_weather] that is not a [RequestException]: the
    first geocoding result lacks its coordinates, the subscript raises
    [KeyError], and [handle_weather] answers with the generic message. *)
Lemma handle_weather_absorbs_key_error :
  let w := {| extract_location := Stub.says_pune;
              requests_get := fun _ => ok_response (PDict {[ "results" := PList [PDict ∅] ]});
              utils_weather_description_fetcher := Stub.table_description_fetcher;
              repr := Stub.coordinate_repr |} in
  fetch_weather w "Pune" false
  = ([HttpGet "https://geocoding-api.open-meteo.com/v1/search?name=Pune"], Raise KeyError)
  /\ outcome (handle_weather w "weather in Pune")
     = Return "An error occurred while fetching the weather. Please try again later."%string.
Proof. split; vm_compute; reflexivity. Qed.


(** * Further properties *)

(** ** Characters and case *)

Lemma ascii_cases (P : ascii -> Prop) :
  (forall b0 b1 b2 b3 b4 b5 b6 b7, P (Ascii b0 b1 b2 b3 b4 b5 b6 b7)) -> forall c, P c.
Proof. intros H [b0 b1 b2 b3 b4 b5 b6 b7]. apply H. Qed.

Ltac by_ascii_cases :=
  let c := fresh "c" in
  intros c; pattern c; apply ascii_cases;
  intros [] [] [] [] [] [] [] []; vm_compute; reflexivity.

Lemma char_lower_idempotent : forall c, Py.char_lower (Py.char_lower c) = Py.char_lower c.
Proof. by_ascii_cases. Qed.

Lemma char_upper_idempotent : forall c, Py.char_upper (Py.char_upper c) = Py.char_upper c.
Proof. by_ascii_cases. Qed.

Lemma isupper_char_lower : forall c, Py.isupper (Py.char_lower c) = false.
Proof. by_ascii_cases. Qed.

Lemma isspace_char_lower : forall c, Py.isspace (Py.char_lower c) = Py.isspace c.
Proof. by_ascii_cases. Qed.

Lemma isspace_char_upper : forall c, Py.isspace (Py.char_upper c) = Py.isspace c.
Proof. by_ascii_cases. Qed.

Lemma iscased_char_lower : forall c, Py.iscased (Py.char_lower c) = Py.iscased c.
Proof. by_ascii_cases. Qed.

Lemma iscased_char_upper : forall c, Py.iscased (Py.char_upper c) = Py.iscased c.
Proof. by_ascii_cases. Qed.

Lemma lower_append (a b : string) : Py.lower (a +:+ b) = Py.lower a +:+ Py.lower b.
Proof.
  induction a as [|c a IH]; [reflexivity|].
  rewrite append_cons. cbn [Py.lower]. now rewrite IH, append_cons.
Qed.

Lemma lower_idempotent (s : string) : Py.lower (Py.lower s) = Py.lower s.
Proof.
  induction s as [|c s IH]; [reflexivity|].
  cbn [Py.lower]. now rewrite IH, char_lower_idempotent.
Qed.

Lemma length_lower (s : string) : String.length (Py.lower s) = String.length s.
Proof. induction s as [|c s IH]; [reflexivity|]. cbn [Py.lower String.length]. now rewrite IH. Qed.

Lemma lower_has_no_upper (s : string) :
  all_chars (fun c => negb (Py.isupper c)) (Py.lower s) = true.
Proof.
  induction s as [|c s IH]; [reflexivity|].
  cbn [Py.lower all_chars]. now rewrite IH, isupper_char_lower.
Qed.

Lemma append_empty_r (s : string) : s +:+ "" = s.
Proof. induction s as [|c s IH]; [reflexivity|]. now rewrite append_cons, IH. Qed.

Lemma append_assoc (a b c : string) : (a +:+ b) +:+ c = a +:+ b +:+ c.
Proof. induction a as [|x a IH]; [reflexivity|]. now rewrite !append_cons, IH. Qed.

Lemma occurs_refl (sub : string) : occurs sub sub.
Proof. exists ""%string, ""%string. now rewrite append_nil, append_empty_r. Qed.

Lemma occurs_extend (sub s before after : string) :
  occurs sub s -> occurs sub (before +:+ s +:+ after).
Proof.
  intros (b & a & ->). exists (before +:+ b), (a +:+ after).
  now rewrite !append_assoc.
Qed.

(** ** The tomorrow flag *)

(** X1: the flag is raised by "tomorrow" or "next day" in any
    capitalisation and at any place in the text, also inside a longer word. *)
Theorem is_tomorrow_any_case_anywhere (before word after : string) :
  Py.lower word = "tomorrow"%string \/ Py.lower word = "next day"%string ->
  snd (parse_weather_input (before +:+ word +:+ after)) = true.
Proof.
  intros H. unfold parse_weather_input. cbn [snd].
  rewrite orb_true_iff, !contains_iff, !lower_append.
  destruct H as [-> | ->]; [left | right]; apply occurs_extend, occurs_refl.
Qed.

Lemma is_tomorrow_any_case_anywhere_witness :
  snd (parse_weather_input ("Umbrella for " +:+ "ToMoRRoW" +:+ "s trip?")) = true.
Proof.
  apply (is_tomorrow_any_case_anywhere "Umbrella for " "ToMoRRoW" "s trip?").
  left. vm_compute. reflexivity.
Defined.

(** ** The search for ["in <words>"] *)

Lemma append_eq_empty (a b : string) : a +:+ b = ""%string -> a = ""%string /\ b = ""%string.
Proof. destruct a; [now rewrite append_nil | rewrite append_cons; discriminate]. Qed.

Lemma all_chars_append (p : ascii -> bool) (a b : string) :
  all_chars p (a +:+ b) = all_chars p a && all_chars p b.
Proof.
  induction a as [|c a IH]; [reflexivity|].
  rewrite append_cons. cbn [all_chars]. now rewrite IH, andb_assoc.
Qed.

Lemma all_chars_both (p q r : ascii -> bool) (s : string) :
  (forall c, p c = true -> q c = true -> r c = true) ->
  all_chars p s = true -> all_chars q s = true -> all_chars r s = true.
Proof.
  intros H. induction s as [|c s IH]; [reflexivity|]. cbn [all_chars].
  rewrite !andb_true_iff. intros [Hp Hps] [Hq Hqs]. split; [now apply H | now apply IH].
Qed.

Lemma span_spec (p : ascii -> bool) (s : string) :
  exists rest, s = Py.span p s +:+ rest
               /\ all_chars p (Py.span p s) = true /\ starts_outside p rest.
Proof.
  induction s as [|c s (rest & Hs & Hall & Hout)].
  - now exists ""%string.
  - cbn [Py.span]. destruct (p c) eqn:Hc.
    + exists rest. rewrite append_cons, <- Hs. cbn [all_chars]. now rewrite Hc, Hall.
    + now exists (String c s).
Qed.

Lemma match_in_here_some (s g : string) :
  match_in_here s = Some g ->
  exists after, s = "in " +:+ g +:+ after
                /\ g <> ""%string /\ all_chars location_char g = true
                /\ starts_outside location_char after.
Proof.
  unfold match_in_here. destruct (String.prefix "in " s) eqn:Hp; [|discriminate].
  apply prefix_iff in Hp as [t ->].
  change (Py.drop 3 ("in " +:+ t)) with t.
  destruct (span_spec location_char t) as (after & Ht & Hall & Hout).
  destruct (Py.span location_char t) as [|c g'] eqn:Hspan; [discriminate|].
  intros [= <-]. exists after. now rewrite <- Ht.
Qed.

Lemma match_in_here_matches (s g : string) : match_in_here s = Some g -> matches_here s.
Proof.
  intros H. apply match_in_here_some in H as (after & -> & Hne & Hall & _).
  destruct g as [|c g]; [now destruct Hne|].
  cbn [all_chars] in Hall. apply andb_true_iff in Hall as [Hc _].
  exists c, (g +:+ after). now rewrite append_cons.
Qed.

Lemma match_in_here_none (s : string) : match_in_here s = None <-> ~ matches_here s.
Proof.
  split.
  - intros H (c & rest & -> & Hc). revert H. unfold match_in_here.
    change (String.prefix "in " ("in " +:+ String c rest)) with (String.prefix "" (String c rest)).
    change (Py.drop 3 ("in " +:+ String c rest)) with (String c rest).
    cbn [String.prefix Py.span]. now rewrite Hc.
  - intros H. destruct (match_in_here s) as [g|] eqn:E; [|reflexivity].
    destruct H. eapply match_in_here_matches, E.
Qed.

Lemma re_search_in_unfold (s : string) :
  re_search_in s
  = match match_in_here s with
    | Some g => Some g
    | None => match s with
              | EmptyString => None
              | String _ s' => re_search_in s'
              end
    end.
Proof. now destruct s. Qed.

Lemma re_search_in_none (s : string) :
  re_search_in s = None
  <-> forall before rest, s = before +:+ rest -> ~ matches_here rest.
Proof.
  induction s as [|c s IH]; rewrite re_search_in_unfold.
  - split; [|reflexivity]. intros _ before rest H.
    symmetry in H. apply append_eq_empty in H as [_ ->].
    intros (x & r & E & _). discriminate E.
  - destruct (match_in_here (String c s)) as [g|] eqn:E.
    + split; [discriminate|]. intros H. destruct (H ""%string (String c s) eq_refl).
      eapply match_in_here_matches, E.
    + rewrite IH. split.
      * intros H [|x before] rest Hs.
        -- rewrite append_nil in Hs. subst rest. now apply match_in_here_none.
        -- rewrite append_cons in Hs. injection Hs as _ Hs. now apply (H before).
      * intros H before rest ->. apply (H (String c before)). now rewrite append_cons.
Qed.

Lemma re_search_in_some (s g : string) :
  re_search_in s = Some g ->
  exists before after,
    s = before +:+ "in " +:+ g +:+ after
    /\ g <> ""%string /\ all_chars location_char g = true
    /\ starts_outside location_char after
    /\ (forall skipped later, before = skipped +:+ later -> later <> ""%string ->
          ~ matches_here (later +:+ "in " +:+ g +:+ after)).
Proof.
  revert g. induction s as [|c s IH]; intros g; rewrite re_search_in_unfold.
  - destruct (match_in_here "") eqn:E; [|discriminate].
    apply match_in_here_some in E as (after & E & _). discriminate E.
  - destruct (match_in_here (String c s)) as [g'|] eqn:E.
    + intros [= ->]. apply match_in_here_some in E as (after & Hs & Hne & Hall & Hout).
      exists ""%string, after. rewrite append_nil. repeat split; try assumption.
      intros skipped later H. symmetry in H. now apply append_eq_empty in H as [_ ->].
    + intros H. apply IH in H as (before & after & -> & Hne & Hall & Hout & Hleft).
      exists (String c before), after. rewrite append_cons. repeat split; try assumption.
      intros [|x skipped] later Hb Hl.
      * rewrite append_nil in Hb. subst later. rewrite append_cons.
        now apply match_in_here_none.
      * rewrite append_cons in Hb. injection Hb as _ Hb. now apply (Hleft skipped).
Qed.

(** X2: [re.search(r"in ([a-zA-Z\s]+)", s)] finds the leftmost place where
    "in " is followed by a letter or a whitespace character, and group 1 is
    the longest run of such characters from there; it finds nothing exactly
    when no such place exists.  Words ending in "in" count. *)
Theorem re_search_in_leftmost_longest (s : string) :
  match re_search_in s with
  | Some group1 =>
      exists before after,
        s = before +:+ "in " +:+ group1 +:+ after
        /\ group1 <> ""%string /\ all_chars location_char group1 = true
        /\ starts_outside location_char after
        /\ (forall skipped later, before = skipped +:+ later -> later <> ""%string ->
              ~ matches_here (later +:+ "in " +:+ group1 +:+ after))
  | None => forall before rest, s = before +:+ rest -> ~ matches_here rest
  end.
Proof.
  destruct (re_search_in s) as [g|] eqn:E.
  - now apply re_search_in_some.
  - now apply re_search_in_none.
Qed.

(** ** [strip] and [title] *)

Lemma lstrip_starts_outside (s : string) : starts_outside Py.isspace (Py.lstrip s).
Proof.
  induction s as [|c s IH]; [exact I|]. cbn [Py.lstrip].
  destruct (Py.isspace c) eqn:E; [exact IH | exact E].
Qed.

Lemma lstrip_fixed (s : string) : starts_outside Py.isspace s -> Py.lstrip s = s.
Proof. destruct s as [|c s]; [reflexivity|]. cbn. now intros ->. Qed.

Lemma rstrip_cons (c : ascii) (s : string) :
  Py.rstrip (String c s)
  = match Py.rstrip s with
    | EmptyString => if Py.isspace c then EmptyString else String c EmptyString
    | r => String c r
    end.
Proof. reflexivity. Qed.

Lemma rstrip_idempotent (s : string) : Py.rstrip (Py.rstrip s) = Py.rstrip s.
Proof.
  induction s as [|c s IH]; [reflexivity|]. rewrite rstrip_cons.
  destruct (Py.rstrip s) as [|x r] eqn:E.
  - destruct (Py.isspace c) eqn:Hc; [reflexivity|]. rewrite rstrip_cons. cbn [Py.rstrip].
    now rewrite Hc.
  - rewrite rstrip_cons. now rewrite IH.
Qed.

Lemma rstrip_starts_outside (s : string) :
  starts_outside Py.isspace s -> starts_outside Py.isspace (Py.rstrip s).
Proof.
  destruct s as [|c s]; [trivial|]. cbn [starts_outside Py.rstrip]. intros Hc.
  destruct (Py.rstrip s); [now rewrite Hc | exact Hc].
Qed.

Lemma strip_trimmed (s : string) : trimmed (Py.strip s).
Proof.
  split.
  - apply rstrip_starts_outside, lstrip_starts_outside.
  - apply rstrip_idempotent.
Qed.

Lemma trimmed_fixed (s : string) : trimmed s -> Py.strip s = s.
Proof. intros [H1 H2]. unfold Py.strip. now rewrite lstrip_fixed. Qed.

Lemma title_from_empty (b : bool) (s : string) :
  Py.title_from b s = ""%string -> s = ""%string.
Proof. now destruct s. Qed.

Lemma title_from_trimmed (b : bool) (s : string) : trimmed s -> trimmed (Py.title_from b s).
Proof.
  intros [H1 H2]. split.
  - destruct s as [|c s]; [exact I|]. cbn in *.
    destruct b; [now rewrite isspace_char_lower | now rewrite isspace_char_upper].
  - clear H1. revert b H2. induction s as [|c s IH]; intros b H; [reflexivity|].
    cbn [Py.title_from]. rewrite rstrip_cons in *.
    assert (Hc : Py.isspace (if b then Py.char_lower c else Py.char_upper c) = Py.isspace c)
      by (destruct b; [apply isspace_char_lower | apply isspace_char_upper]).
    destruct (Py.rstrip s) as [|x r] eqn:E.
    + destruct (Py.isspace c) eqn:Hs; [discriminate|].
      injection H as <-. cbn [Py.title_from Py.rstrip]. now rewrite Hc.
    + injection H as H. rewrite (IH (Py.iscased c) H).
      destruct (Py.title_from (Py.iscased c) s) eqn:T; [|reflexivity].
      apply title_from_empty in T. subst s. discriminate.
Qed.

Lemma title_from_idempotent (b : bool) (s : string) :
  Py.title_from b (Py.title_from b s) = Py.title_from b s.
Proof.
  revert b. induction s as [|c s IH]; intros b; [reflexivity|].
  cbn [Py.title_from]. f_equal.
  - destruct b; [apply char_lower_idempotent | apply char_upper_idempotent].
  - replace (Py.iscased (if b then Py.char_lower c else Py.char_upper c)) with (Py.iscased c)
      by (destruct b; [now rewrite iscased_char_lower | now rewrite iscased_char_upper]).
    apply IH.
Qed.

(** What [.strip().title()] returns is left unchanged by [strip] and by [title]. *)
Lemma strip_title_clean (s : string) :
  Py.strip (Py.title (Py.strip s)) = Py.title (Py.strip s)
  /\ Py.title (Py.title (Py.strip s)) = Py.title (Py.strip s).
Proof.
  split.
  - apply trimmed_fixed, title_from_trimmed, strip_trimmed.
  - apply title_from_idempotent.
Qed.

(** X3: on ASCII text, the location guessed by [parse_weather_input] is,
    when the pattern matches, group 1 as it was found: never empty, made of
    lower-case letters and whitespace only, neither trimmed nor
    capitalised; and otherwise a string that [strip] and [title] leave
    unchanged. *)
Theorem parse_weather_input_location (user_input : string) :
  ascii_text user_input ->
  match re_search_in (Py.lower user_input) with
  | Some group1 =>
      fst (parse_weather_input user_input) = group1
      /\ group1 <> ""%string
      /\ all_chars (fun c => Py.islower c || Py.isspace c) group1 = true
  | None =>
      Py.strip (fst (parse_weather_input user_input)) = fst (parse_weather_input user_input)
      /\ Py.title (fst (parse_weather_input user_input)) = fst (parse_weather_input user_input)
  end.
Proof.
  intros _. unfold parse_weather_input. cbn [fst].
  destruct (re_search_in (Py.lower user_input)) as [g|] eqn:E.
  - apply re_search_in_some in E as (before & after & Hs & Hne & Hall & _).
    repeat split; [exact Hne|].
    pose proof (lower_has_no_upper user_input) as Hlow.
    rewrite Hs, !all_chars_append, !andb_true_iff in Hlow.
    destruct Hlow as (_ & _ & Hg & _).
    revert Hg Hall. apply all_chars_both. intros c. unfold location_char.
    destruct (Py.isupper c), (Py.islower c), (Py.isspace c); cbn; congruence.
  - apply strip_title_clean.
Qed.

Lemma parse_weather_input_location_witness :
  (fst (parse_weather_input "Weather in New Delhi?") = "new delhi"%string
   /\ "new delhi"%string <> ""%string
   /\ all_chars (fun c => Py.islower c || Py.isspace c) "new delhi" = true)
  /\ (Py.strip (fst (parse_weather_input "  Weather o'hare  "))
      = fst (parse_weather_input "  Weather o'hare  ")
      /\ Py.title (fst (parse_weather_input "  Weather o'hare  "))
         = fst (parse_weather_input "  Weather o'hare  ")).
Proof.
  split.
  - exact (parse_weather_input_location "Weather in New Delhi?" eq_refl).
  - exact (parse_weather_input_location "  Weather o'hare  " eq_refl).
Defined.

(** ** What sanitizing does to a place name *)

Lemma intersperse_empty (s : string) : Py.intersperse "" s = s.
Proof.
  induction s as [|c s IH]; [reflexivity|]. cbn [Py.intersperse]. now rewrite append_nil, IH.
Qed.

Lemma length_remove_le (s old : string) :
  (String.length (Py.replace s old "") <= String.length s)%nat.
Proof.
  destruct old as [|c old].
  - unfold Py.replace. now rewrite intersperse_empty.
  - rewrite replace_nonempty by discriminate.
    pose proof (remove_from_length (String c old) 0 s). lia.
Qed.

Lemma length_strip_keywords_le (keywords : list string) (s : string) :
  (String.length (strip_keywords keywords s) <= String.length s)%nat.
Proof.
  revert s. induction keywords as [|k keywords IH]; intros s; [reflexivity|].
  rewrite strip_keywords_cons. etransitivity; [apply IH | apply length_remove_le].
Qed.

Lemma length_lstrip_le (s : string) : (String.length (Py.lstrip s) <= String.length s)%nat.
Proof.
  induction s as [|c s IH]; [reflexivity|]. cbn [Py.lstrip].
  destruct (Py.isspace c); cbn [String.length]; lia.
Qed.

Lemma length_rstrip_le (s : string) : (String.length (Py.rstrip s) <= String.length s)%nat.
Proof.
  induction s as [|c s IH]; [reflexivity|]. rewrite rstrip_cons.
  destruct (Py.rstrip s); [destruct (Py.isspace c)|]; cbn [String.length] in *; lia.
Qed.

Lemma length_strip_le (s : string) : (String.length (Py.strip s) <= String.length s)%nat.
Proof. unfold Py.strip. etransitivity; [apply length_rstrip_le | apply length_lstrip_le]. Qed.

Lemma length_title_from (b : bool) (s : string) :
  String.length (Py.title_from b s) = String.length s.
Proof.
  revert b. induction s as [|c s IH]; intros b; [reflexivity|].
  cbn [Py.title_from String.length]. now rewrite IH.
Qed.

Lemma strip_keywords_absent (keywords : list string) (s : string) :
  (forall keyword, keyword ∈ keywords -> ~ occurs keyword s) ->
  strip_keywords keywords s = s.
Proof.
  induction keywords as [|k keywords IH]; intros H; [reflexivity|].
  rewrite strip_keywords_cons, replace_absent.
  - apply IH. intros keyword Hin. apply H. now right.
  - intros ->. apply (H ""%string); [left | exists ""%string, s; reflexivity].
  - apply H. left.
Qed.

Lemma strip_keywords_shrinks (keywords : list string) (s : string) :
  (forall keyword, keyword ∈ keywords -> keyword <> ""%string) ->
  (exists keyword, keyword ∈ keywords /\ occurs keyword s) ->
  (String.length (strip_keywords keywords s) < String.length s)%nat.
Proof.
  induction keywords as [|k keywords IH]; intros Hne (keyword & Hin & Hocc).
  - inversion Hin.
  - assert (Hk : k <> ""%string) by (apply Hne; left).
    rewrite strip_keywords_cons. destruct (Py.contains k s) eqn:E.
    + apply contains_iff in E. pose proof (remove_shrinks k Hk s E) as Hlen.
      pose proof (length_strip_keywords_le keywords (Py.replace s k "")).
      destruct k; [now destruct Hk|]. cbn [String.length] in Hlen. lia.
    + assert (Hno : ~ occurs k s) by (rewrite <- contains_iff, E; discriminate).
      rewrite replace_absent by assumption.
      apply IH; [intros ? ?; apply Hne; now right|].
      exists keyword. split; [|exact Hocc].
      apply elem_of_cons in Hin as [-> | Hin]; [contradiction | exact Hin].
Qed.

(** X4: a place name whose lower-case form contains no stoplist token goes
    through sanitizing untouched, apart from trimming and capitalisation. *)
Theorem sanitize_keeps_clean_name (raw : string) :
  (forall token, token ∈ sanitize_keywords -> ~ occurs token (Py.lower raw)) ->
  sanitize (PStr raw) = Return (Py.title (Py.strip (Py.lower raw))).
Proof.
  intros H. unfold sanitize. cbn [Builtin.lower]. now rewrite strip_keywords_absent.
Qed.

Lemma sanitize_keeps_clean_name_witness :
  sanitize (PStr "  new DELHI ") = Return "New Delhi"%string.
Proof.
  rewrite (sanitize_keeps_clean_name "  new DELHI "); [reflexivity|].
  intros token Hin. rewrite <- contains_iff.
  apply list_elem_of_In in Hin. cbv [sanitize_keywords In] in Hin.
  repeat (destruct Hin as [<- | Hin]; [vm_compute; discriminate|]). destruct Hin.
Defined.

(** X5: for an ASCII extractor output, the sanitized location is never
    longer than what the extractor returned, and it is strictly shorter as
    soon as the lower-case text contains one stoplist token, be it in the
    middle of the name: such a name never reaches the geocoder intact. *)
Theorem sanitize_shortens (raw : string) :
  ascii_text raw ->
  exists location,
    sanitize (PStr raw) = Return location
    /\ (String.length location <= String.length raw)%nat
    /\ ((exists token, token ∈ sanitize_keywords /\ occurs token (Py.lower raw)) ->
        (String.length location < String.length raw)%nat).
Proof.
  intros _. eexists. split; [reflexivity|].
  unfold Py.title. rewrite length_title_from.
  pose proof (length_strip_le (strip_keywords sanitize_keywords (Py.lower raw))) as H1.
  pose proof (length_strip_keywords_le sanitize_keywords (Py.lower raw)) as H2.
  rewrite length_lower in H2. split; [lia|].
  intros H. apply strip_keywords_shrinks in H; [|apply sanitize_keywords_nonempty].
  rewrite length_lower in H. lia.
Qed.

Lemma sanitize_shortens_witness :
  exists location,
    sanitize (PStr "Berlin") = Return location
    /\ (String.length location <= String.length "Berlin")%nat
    /\ ((exists token, token ∈ sanitize_keywords /\ occurs token (Py.lower "Berlin")) ->
        (String.length location < String.length "Berlin")%nat).
Proof.
  apply (sanitize_shortens "Berlin"). vm_compute. reflexivity.
Defined.

(** ** How many calls a run makes *)

Lemma filter_none (p : event -> bool) (evs : list event) :
  Forall (fun ev => p ev = false) evs -> List.filter p evs = [].
Proof. induction 1 as [|ev evs H _ IH]; [reflexivity|]. cbn. now rewrite H. Qed.

Section Budget.
Variable p : event -> bool.
Context {A B : Type}.

Lemma at_most_silent (n : nat) (m : M A) : silent p m -> at_most p n m.
Proof. intros H. unfold at_most. rewrite (filter_none p _ H). cbn. lia. Qed.

Lemma at_most_bind_silent (n : nat) (m : M A) (k : A -> M B) :
  silent p m -> (forall a, at_most p n (k a)) -> at_most p n (bind m k).
Proof.
  unfold at_most. intros Hm Hk. rewrite calls_bind, List.filter_app, (filter_none p _ Hm).
  destruct (outcome m); [apply Hk | cbn; lia].
Qed.

Lemma at_most_bind_then_silent (n : nat) (m : M A) (k : A -> M B) :
  at_most p n m -> (forall a, silent p (k a)) -> at_most p n (bind m k).
Proof.
  unfold at_most. intros Hm Hk. rewrite calls_bind, List.filter_app, length_app.
  destruct (outcome m) as [a|e]; [rewrite (filter_none p _ (Hk a))|]; cbn; lia.
Qed.

Lemma at_most_bind_call (n : nat) (ev : event) (r : result A) (k : A -> M B) :
  (forall a, at_most p n (k a)) -> at_most p (S n) (bind (call ev r) k).
Proof.
  unfold at_most, call. intros Hk. destruct r as [a|e].
  - rewrite bind_return. unfold calls at 1. cbn [fst].
    rewrite List.filter_app, length_app. specialize (Hk a).
    cbn [List.filter]. destruct (p ev); cbn [length]; lia.
  - rewrite bind_raise. unfold calls. cbn [fst List.filter]. destruct (p ev); cbn [length]; lia.
Qed.

Lemma at_most_try_except (n : nat) (body : M A) catches (handler : exn -> M A) :
  at_most p n body -> (forall e, silent p (handler e)) ->
  at_most p n (try_except body catches handler).
Proof.
  unfold at_most. intros Hb Hh. rewrite calls_try_except, List.filter_app, length_app.
  destruct (outcome body) as [|e]; [cbn; lia|].
  destruct (catches e); [rewrite (filter_none p _ (Hh e))|]; cbn; lia.
Qed.

End Budget.

Ltac silent_steps :=
  unfold silent;
  repeat first
    [ apply only_ret
    | apply only_lift
    | apply only_call; reflexivity
    | apply only_bind; [|intros ?]
    | apply only_try_except; [|intros ?]
    | match goal with
      | |- only _ (if ?b then _ else _) => destruct b
      | |- only _ (match ?e with _ => _ end) => destruct e
      end ].

Ltac budget_steps :=
  repeat first
    [ apply at_most_silent; solve [silent_steps]
    | apply at_most_bind_silent; [solve [silent_steps] | intros ?]
    | apply at_most_bind_call; intros ?
    | apply at_most_try_except; [|intros ?; solve [silent_steps]]
    | match goal with
      | |- at_most _ _ (if ?b then _ else _) => destruct b
      | |- at_most _ _ (match ?e with _ => _ end) => destruct e
      end ].

Lemma fetch_weather_first_call (w : world) (location : string) (is_tomorrow : bool) :
  exists rest,
    calls (fetch_weather w location is_tomorrow) = HttpGet (geocode_url location) :: rest.
Proof.
  unfold fetch_weather. rewrite calls_try_except, calls_bind. unfold get at 1.
  cbn [call calls fst app]. now eexists.
Qed.

Lemma fetch_weather_two_requests (w : world) (location : string) (is_tomorrow : bool) :
  at_most is_get 2 (fetch_weather w location is_tomorrow).
Proof. unfold fetch_weather, get. budget_steps. Qed.

Lemma fetch_weather_one_description (w : world) (location : string) (is_tomorrow : bool) :
  at_most is_description 1 (fetch_weather w location is_tomorrow).
Proof. unfold fetch_weather, get. budget_steps. Qed.

Lemma fetch_weather_no_extraction (w : world) (location : string) (is_tomorrow : bool) :
  silent is_extraction (fetch_weather w location is_tomorrow).
Proof. apply fetch_weather_only; reflexivity. Qed.

(** X6: one run of [fetch_weather] starts with the geocoding request, sends
    at most two requests in all, asks the imported helper for a description
    at most once and never calls the extractor: nothing is retried. *)
Theorem fetch_weather_call_budget (w : world) (location : string) (is_tomorrow : bool) :
  (exists rest,
      calls (fetch_weather w location is_tomorrow) = HttpGet (geocode_url location) :: rest)
  /\ at_most is_get 2 (fetch_weather w location is_tomorrow)
  /\ at_most is_description 1 (fetch_weather w location is_tomorrow)
  /\ silent is_extraction (fetch_weather w location is_tomorrow).
Proof.
  split; [apply fetch_weather_first_call|].
  split; [apply fetch_weather_two_requests|].
  split; [apply fetch_weather_one_description | apply fetch_weather_no_extraction].
Qed.

(** X7: one run of [handle_weather] calls the extractor first and exactly
    once, then sends at most two requests and asks for at most one
    description. *)
Theorem handle_weather_call_budget (w : world) (user_input : string) :
  (exists rest,
      calls (handle_weather w user_input) = ExtractLocation user_input :: rest
      /\ Forall (fun ev => is_extraction ev = false) rest)
  /\ at_most is_get 2 (handle_weather w user_input)
  /\ at_most is_description 1 (handle_weather w user_input).
Proof.
  unfold handle_weather.
  destruct (parse_weather_input user_input) as [guess is_tomorrow].
  split; [|split].
  - rewrite calls_bind. cbn [call calls fst app]. eexists. split; [reflexivity|].
    destruct (outcome _) as [raw|e]; [|constructor].
    change (silent is_extraction
              (location <- lift (sanitize raw) ;;
               match location with
               | EmptyString => ret clarification
               | String _ _ =>
                   try_except (response <- fetch_weather w location is_tomorrow ;; ret response)
                     is_exception (fun _ => ret generic_failure)
               end)%py).
    unfold silent. apply only_bind; [apply only_lift|]. intros [|c location]; [apply only_ret|].
    apply only_try_except; [|intros; apply only_ret].
    apply only_bind; [apply fetch_weather_no_extraction | intros; apply only_ret].
  - apply at_most_bind_silent; [silent_steps|]. intros raw.
    apply at_most_bind_silent; [silent_steps|]. intros [|c location]; [budget_steps|].
    apply at_most_try_except; [|intros; silent_steps].
    apply at_most_bind_then_silent; [apply fetch_weather_two_requests | intros; silent_steps].
  - apply at_most_bind_silent; [silent_steps|]. intros raw.
    apply at_most_bind_silent; [silent_steps|]. intros [|c location]; [budget_steps|].
    apply at_most_try_except; [|intros; silent_steps].
    apply at_most_bind_then_silent; [apply fetch_weather_one_description | intros; silent_steps].
Qed.

(** ** Failures of the two requests *)

(** X8: when the geocoding request fails with a [RequestException], be it
    in [requests.get], in [raise_for_status] or in [json], [fetch_weather]
    answers "An error occurred while fetching weather data: <text>" and
    sends no forecast request. *)
Theorem fetch_weather_geocoding_failure
    (w : world) (location : string) (is_tomorrow : bool) (msg : string) :
  request_fails w (geocode_url location) msg ->
  fetch_weather w location is_tomorrow
  = ([HttpGet (geocode_url location)],
     Return ("An error occurred while fetching weather data: " +:+ msg)).
Proof.
  intros [H | (status & body & H & [-> | [-> ->]])];
    unfold fetch_weather, get; exec; reflexivity.
Qed.

Lemma fetch_weather_geocoding_failure_witness :
  fetch_weather (Stub.scripted_world Stub.says_pune Stub.connection_refused Stub.server_error)
                "Pune" true
  = ([HttpGet "https://geocoding-api.open-meteo.com/v1/search?name=Pune"],
     Return "An error occurred while fetching weather data: Connection refused"%string).
Proof.
  apply (fetch_weather_geocoding_failure
           (Stub.scripted_world Stub.says_pune Stub.connection_refused Stub.server_error)
           "Pune" true "Connection refused").
  left. reflexivity.
Defined.

(** X9: when the place is resolved and the forecast request fails with a
    [RequestException], [fetch_weather] answers with the same kind of
    message, for today as for tomorrow, after exactly two requests. *)
Theorem fetch_weather_forecast_failure
    (w : world) (location : string) (is_tomorrow : bool) (msg : string)
    (geo entry : gmap string pyval) (more : list pyval)
    (latitude longitude location_name : pyval) :
  requests_get w (geocode_url location) = ok_response (PDict geo) ->
  geo !! "results" = Some (PList (PDict entry :: more)) ->
  entry !! "latitude" = Some latitude ->
  entry !! "longitude" = Some longitude ->
  entry !! "name" = Some location_name ->
  request_fails w (weather_url w latitude longitude is_tomorrow) msg ->
  fetch_weather w location is_tomorrow
  = ([HttpGet (geocode_url location); HttpGet (weather_url w latitude longitude is_tomorrow)],
     Return ("An error occurred while fetching weather data: " +:+ msg)).
Proof.
  intros Hg Hr Hlat Hlon Hname Hfail.
  rewrite (fetch_weather_located w location is_tomorrow geo Hg entry more _ _ _
             Hr Hlat Hlon Hname).
  unfold on_request_exception, forecast_stage, get.
  destruct Hfail as [H | (status & body & H & [-> | [-> ->]])]; exec; reflexivity.
Qed.

Lemma fetch_weather_forecast_failure_witness :
  outcome (fetch_weather
             (Stub.scripted_world Stub.says_pune (ok_response (PDict Stub.pune_geocode))
                                  Stub.server_error)
             "Pune" false)
  = Return "An error occurred while fetching weather data: 503 Server Error"%string.
Proof.
  rewrite (fetch_weather_forecast_failure
             (Stub.scripted_world Stub.says_pune (ok_response (PDict Stub.pune_geocode))
                                  Stub.server_error)
             "Pune" false "503 Server Error" Stub.pune_geocode Stub.pune_entry []
             (PFloat 18.5) (PFloat 73.8) (PStr "Pune"));
    try reflexivity.
  right. now exists (Raise (RequestException "503 Server Error")), (Return PNone); auto.
Defined.

(** ** Malformed answers *)

(** X10: when the first geocoding result lacks its latitude, longitude or
    name, the subscript raises [KeyError]; [fetch_weather] does not catch
    it, and no forecast request has been sent. *)
Theorem fetch_weather_incomplete_first_result
    (w : world) (location : string) (is_tomorrow : bool)
    (geo entry : gmap string pyval) (more : list pyval) :
  requests_get w (geocode_url location) = ok_response (PDict geo) ->
  geo !! "results" = Some (PList (PDict entry :: more)) ->
  entry !! "latitude" = None \/ entry !! "longitude" = None \/ entry !! "name" = None ->
  fetch_weather w location is_tomorrow = ([HttpGet (geocode_url location)], Raise KeyError).
Proof.
  intros Hg Hr H. unfold fetch_weather. unfold get at 1.
  destruct (entry !! "latitude") as [latitude|] eqn:Hlat;
    [destruct (entry !! "longitude") as [longitude|] eqn:Hlon;
     [destruct (entry !! "name") as [name|] eqn:Hname|]|];
    try (exec; reflexivity).
  now destruct H as [H | [H | H]].
Qed.

Lemma fetch_weather_incomplete_first_result_witness :
  fetch_weather (Stub.scripted_world Stub.says_pune (ok_response (PDict Stub.nameless_geocode))
                                     Stub.server_error)
                "Pune" false
  = ([HttpGet "https://geocoding-api.open-meteo.com/v1/search?name=Pune"], Raise KeyError).
Proof.
  apply (fetch_weather_incomplete_first_result
           (Stub.scripted_world Stub.says_pune (ok_response (PDict Stub.nameless_geocode))
                                Stub.server_error)
           "Pune" false Stub.nameless_geocode {[ "name" := PStr "Pune" ]} []);
    [reflexivity | reflexivity | left; reflexivity].
Defined.

Lemma forecast_stage_received_any
    (w : world) (latitude longitude location_name weather_data : pyval) (is_tomorrow : bool) :
  requests_get w (weather_url w latitude longitude is_tomorrow) = ok_response weather_data ->
  forecast_stage w latitude longitude location_name is_tomorrow
  = prepend [HttpGet (weather_url w latitude longitude is_tomorrow)]
      (if is_tomorrow
       then tomorrow_forecast w weather_data location_name
       else current_conditions w weather_data location_name).
Proof. intros H. unfold forecast_stage, get. exec. reflexivity. Qed.

Lemma tomorrow_forecast_returns (w : world) (weather_data location_name : pyval) :
  exists reply, outcome (tomorrow_forecast w weather_data location_name) = Return reply.
Proof.
  unfold tomorrow_forecast.
  match goal with |- context [try_except ?body _ _] => destruct body as [evs [reply|e]] end.
  - now exists reply.
  - rewrite try_except_raise. now eexists.
Qed.

(** X11: once the forecast answer for tomorrow has arrived, [fetch_weather]
    returns a string whatever the body holds and whatever the description
    helper does: nothing raised in that branch gets out. *)
Theorem fetch_weather_tomorrow_returns
    (w : world) (location : string) (geo entry : gmap string pyval) (more : list pyval)
    (latitude longitude location_name weather_data : pyval) :
  requests_get w (geocode_url location) = ok_response (PDict geo) ->
  geo !! "results" = Some (PList (PDict entry :: more)) ->
  entry !! "latitude" = Some latitude ->
  entry !! "longitude" = Some longitude ->
  entry !! "name" = Some location_name ->
  requests_get w (weather_url w latitude longitude true) = ok_response weather_data ->
  exists reply, outcome (fetch_weather w location true) = Return reply.
Proof.
  intros Hg Hr Hlat Hlon Hname Hf.
  rewrite (fetch_weather_located w location true geo Hg entry more _ _ _ Hr Hlat Hlon Hname).
  rewrite (forecast_stage_received_any w _ _ _ weather_data true Hf).
  rewrite on_request_exception_prepend. unfold prepend. cbn [outcome snd].
  destruct (tomorrow_forecast_returns w weather_data location_name) as [reply H].
  exists reply. unfold on_request_exception.
  destruct (tomorrow_forecast w weather_data location_name) as [evs r].
  cbn [outcome snd] in H. now subst r.
Qed.

Lemma fetch_weather_tomorrow_returns_witness :
  exists reply,
    outcome (fetch_weather
               (Stub.scripted_world Stub.says_pune (ok_response (PDict Stub.pune_geocode))
                                    (ok_response (PStr "<html>maintenance</html>")))
               "Pune" true)
    = Return reply.
Proof.
  apply (fetch_weather_tomorrow_returns
           (Stub.scripted_world Stub.says_pune (ok_response (PDict Stub.pune_geocode))
                                (ok_response (PStr "<html>maintenance</html>")))
           "Pune" Stub.pune_geocode Stub.pune_entry [] (PFloat 18.5) (PFloat 73.8)
           (PStr "Pune") (PStr "<html>maintenance</html>")); reflexivity.
Defined.

Lemma tomorrow_of_short (daily : gmap string pyval) (field : string) :
  series_too_short daily field -> exists e, tomorrow_of (PDict daily) field = Raise e.
Proof.
  unfold tomorrow_of. cbn [Builtin.getitem_key].
  intros [-> | (series & -> & Hlen)]; [now eexists|].
  cbn [Builtin.getitem_index]. rewrite (lookup_ge_None_2 series 1) by lia. now eexists.
Qed.

Lemma tomorrow_forecast_short
    (w : world) (forecast : gmap string pyval) (location_name : pyval) :
  forecast !! "daily" = None
  \/ (exists daily field,
        forecast !! "daily" = Some (PDict daily)
        /\ field ∈ daily_fields /\ series_too_short daily field) ->
  tomorrow_forecast w (PDict forecast) location_name = ([], Return tomorrow_apology).
Proof.
  unfold tomorrow_forecast. cbn [Builtin.getitem_key].
  intros [-> | (daily & field & -> & Hin & Hshort)]; [reflexivity|].
  apply tomorrow_of_short in Hshort as [e He]. rewrite bind_lift_return.
  destruct (tomorrow_of (PDict daily) "weathercode") as [code|e1] eqn:E1; [|reflexivity].
  rewrite bind_lift_return.
  destruct (tomorrow_of (PDict daily) "temperature_2m_max") as [high|e2] eqn:E2; [|reflexivity].
  rewrite bind_lift_return.
  destruct (tomorrow_of (PDict daily) "temperature_2m_min") as [low|e3] eqn:E3; [|reflexivity].
  apply list_elem_of_In in Hin. cbv [daily_fields In] in Hin.
  destruct Hin as [<- | [<- | [<- | []]]]; congruence.
Qed.

(** X12: for tomorrow, a body without "daily", or whose weathercode,
    temperature_2m_max or temperature_2m_min series is missing or holds
    fewer than two values, gives the apology "Sorry, I couldn't fetch
    tomorrow’s forecast right now."; the description helper is not called. *)
Theorem fetch_weather_tomorrow_short_series
    (w : world) (location : string) (geo entry forecast : gmap string pyval)
    (more : list pyval) (latitude longitude location_name : pyval) :
  requests_get w (geocode_url location) = ok_response (PDict geo) ->
  geo !! "results" = Some (PList (PDict entry :: more)) ->
  entry !! "latitude" = Some latitude ->
  entry !! "longitude" = Some longitude ->
  entry !! "name" = Some location_name ->
  requests_get w (weather_url w latitude longitude true) = ok_response (PDict forecast) ->
  forecast !! "daily" = None
  \/ (exists daily field,
        forecast !! "daily" = Some (PDict daily)
        /\ field ∈ daily_fields /\ series_too_short daily field) ->
  fetch_weather w location true
  = ([HttpGet (geocode_url location); HttpGet (weather_url w latitude longitude true)],
     Return "Sorry, I couldn't fetch tomorrow’s forecast right now."%string).
Proof.
  intros Hg Hr Hlat Hlon Hname Hf Hshort.
  rewrite (fetch_weather_located w location true geo Hg entry more _ _ _ Hr Hlat Hlon Hname).
  rewrite (forecast_stage_received w _ _ _ forecast true Hf).
  now rewrite (tomorrow_forecast_short w forecast location_name Hshort).
Qed.

Lemma fetch_weather_tomorrow_short_series_witness :
  outcome (fetch_weather
             (Stub.scripted_world Stub.says_pune (ok_response (PDict Stub.pune_geocode))
                                  (ok_response (PDict Stub.one_day_forecast)))
             "Pune" true)
  = Return "Sorry, I couldn't fetch tomorrow’s forecast right now."%string.
Proof.
  rewrite (fetch_weather_tomorrow_short_series
             (Stub.scripted_world Stub.says_pune (ok_response (PDict Stub.pune_geocode))
                                  (ok_response (PDict Stub.one_day_forecast)))
             "Pune" Stub.pune_geocode Stub.pune_entry Stub.one_day_forecast []
             (PFloat 18.5) (PFloat 73.8) (PStr "Pune")); try reflexivity.
  right. eexists _, "weathercode"%string. split; [reflexivity|]. split; [left|].
  right. exists [PInt 3]. split; [reflexivity | cbn; lia].
Defined.

(** X13: for today, a body without "current_weather" gives "Sorry, I
    couldn't fetch the weather details at this time."; the description
    helper is not called. *)
Theorem fetch_weather_no_current_weather
    (w : world) (location : string) (geo entry forecast : gmap string pyval)
    (more : list pyval) (latitude longitude location_name : pyval) :
  requests_get w (geocode_url location) = ok_response (PDict geo) ->
  geo !! "results" = Some (PList (PDict entry :: more)) ->
  entry !! "latitude" = Some latitude ->
  entry !! "longitude" = Some longitude ->
  entry !! "name" = Some location_name ->
  requests_get w (weather_url w latitude longitude false) = ok_response (PDict forecast) ->
  forecast !! "current_weather" = None ->
  fetch_weather w location false
  = ([HttpGet (geocode_url location); HttpGet (weather_url w latitude longitude false)],
     Return "Sorry, I couldn't fetch the weather details at this time."%string).
Proof.
  intros Hg Hr Hlat Hlon Hname Hf Hc.
  rewrite (fetch_weather_located w location false geo Hg entry more _ _ _ Hr Hlat Hlon Hname).
  rewrite (forecast_stage_received w _ _ _ forecast false Hf).
  unfold current_conditions. exec. reflexivity.
Qed.

Lemma fetch_weather_no_current_weather_witness :
  outcome (fetch_weather
             (Stub.scripted_world Stub.says_pune (ok_response (PDict Stub.pune_geocode))
                                  (ok_response (PDict Stub.pune_forecast)))
             "Pune" false)
  = Return "Sorry, I couldn't fetch the weather details at this time."%string.
Proof.
  rewrite (fetch_weather_no_current_weather
             (Stub.scripted_world Stub.says_pune (ok_response (PDict Stub.pune_geocode))
                                  (ok_response (PDict Stub.pune_forecast)))
             "Pune" Stub.pune_geocode Stub.pune_entry Stub.pune_forecast []
             (PFloat 18.5) (PFloat 73.8) (PStr "Pune")); reflexivity.
Defined.

(** X14: for today, nothing recovers from a malformed "current_weather"
    block inside [fetch_weather]: a missing temperature or windspeed raises
    [KeyError] before the description helper is called, and a temperature
    that is not a number raises [TypeError] once the helper has answered. *)
Theorem fetch_weather_malformed_current_weather
    (w : world) (location : string) (geo entry forecast current_weather : gmap string pyval)
    (more : list pyval) (latitude longitude location_name : pyval) :
  requests_get w (geocode_url location) = ok_response (PDict geo) ->
  geo !! "results" = Some (PList (PDict entry :: more)) ->
  entry !! "latitude" = Some latitude ->
  entry !! "longitude" = Some longitude ->
  entry !! "name" = Some location_name ->
  requests_get w (weather_url w latitude longitude false) = ok_response (PDict forecast) ->
  forecast !! "current_weather" = Some (PDict current_weather) ->
  (current_weather !! "temperature" = None \/ current_weather !! "windspeed" = None ->
   fetch_weather w location false
   = ([HttpGet (geocode_url location); HttpGet (weather_url w latitude longitude false)],
      Raise KeyError))
  /\ (forall temperature windspeed description : pyval,
         current_weather !! "temperature" = Some temperature ->
         not_a_number temperature ->
         current_weather !! "windspeed" = Some windspeed ->
         utils_weather_description_fetcher w
           (default (PInt (-1)) (current_weather !! "weathercode")) = Return description ->
         fetch_weather w location false
         = ([HttpGet (geocode_url location); HttpGet (weather_url w latitude longitude false);
             UtilsDescription (default (PInt (-1)) (current_weather !! "weathercode"))],
            Raise TypeError)).
Proof.
  intros Hg Hr Hlat Hlon Hname Hf Hc.
  rewrite (fetch_weather_located w location false geo Hg entry more _ _ _ Hr Hlat Hlon Hname).
  rewrite (forecast_stage_received w _ _ _ forecast false Hf).
  split.
  - intros H. unfold current_conditions.
    destruct (current_weather !! "temperature") as [temperature|] eqn:Ht;
      [destruct (current_weather !! "windspeed") as [windspeed|] eqn:Hw|];
      try (exec; reflexivity).
    now destruct H.
  - intros temperature windspeed description Ht Hnan Hw Hdesc.
    rewrite (current_conditions_rendered w _ forecast current_weather _ _ Hc Ht Hw).
    rewrite Hdesc. destruct temperature; try contradiction; reflexivity.
Qed.

Lemma fetch_weather_malformed_current_weather_witness :
  fetch_weather
    (Stub.scripted_world Stub.says_pune (ok_response (PDict Stub.pune_geocode))
       (ok_response (PDict Stub.null_temperature_forecast)))
    "Pune" false
  = ([HttpGet "https://geocoding-api.open-meteo.com/v1/search?name=Pune";
      HttpGet "https://api.open-meteo.com/v1/forecast?latitude=18.5&longitude=73.8&current_weather=true";
      UtilsDescription (PInt 2)],
     Raise TypeError).
Proof.
  refine (proj2 (fetch_weather_malformed_current_weather
                   (Stub.scripted_world Stub.says_pune (ok_response (PDict Stub.pune_geocode))
                      (ok_response (PDict Stub.null_temperature_forecast)))
                   "Pune" Stub.pune_geocode Stub.pune_entry
                   Stub.null_temperature_forecast Stub.null_temperature
                   [] (PFloat 18.5) (PFloat 73.8) (PStr "Pune") _ _ _ _ _ _ _)
            PNone (PInt 12) (PStr "Partly cloudy") _ _ _ _);
    first [exact I | vm_compute; reflexivity].
Defined.

(** ** [handle_weather] as a whole *)

(** X15: when the extractor returns something that is not a string, the
    [.lower()] call of step 3 raises [AttributeError]; it happens outside
    the [try] block, so [handle_weather] raises it, and nothing has been
    requested. *)
Theorem handle_weather_non_string_location (w : world) (user_input : string) (raw : pyval) :
  extract_location w user_input = Return raw ->
  (forall s, raw <> PStr s) ->
  handle_weather w user_input = ([ExtractLocation user_input], Raise AttributeError).
Proof.
  intros H Hraw. apply (handle_weather_sanitize_raises w user_input raw); [exact H|].
  destruct raw; try reflexivity. now destruct (Hraw s).
Qed.

Lemma handle_weather_non_string_location_witness :
  handle_weather (Stub.scripted_world Stub.says_none Stub.connection_refused
                                      Stub.connection_refused)
                 "Weather in Pune"
  = ([ExtractLocation "Weather in Pune"], Raise AttributeError).
Proof.
  apply (handle_weather_non_string_location
           (Stub.scripted_world Stub.says_none Stub.connection_refused Stub.connection_refused)
           "Weather in Pune" PNone); [reflexivity | discriminate].
Defined.

Lemma requested_urls_cons_extraction (text : string) (evs : list event) :
  requested_urls (ExtractLocation text :: evs) = requested_urls evs.
Proof. reflexivity. Qed.

(** X16: the two requests of a run of [handle_weather] are the geocoding of
    the sanitized location and the forecast for the coordinates of the
    first result; the daily forecast is the one requested exactly when the
    text of the query, lower-cased, contains "tomorrow" or "next day" (what
    the extractor answered plays no part in that choice). *)
Theorem handle_weather_requests
    (w : world) (user_input : string) (raw : pyval) (location : string)
    (geo entry : gmap string pyval) (more : list pyval)
    (latitude longitude location_name : pyval) :
  extract_location w user_input = Return raw ->
  sanitize raw = Return location ->
  location <> ""%string ->
  requests_get w (geocode_url location) = ok_response (PDict geo) ->
  geo !! "results" = Some (PList (PDict entry :: more)) ->
  entry !! "latitude" = Some latitude ->
  entry !! "longitude" = Some longitude ->
  entry !! "name" = Some location_name ->
  requested_urls (calls (handle_weather w user_input))
  = [ geocode_url location;
      weather_url w latitude longitude
        (Py.contains "tomorrow" (Py.lower user_input)
         || Py.contains "next day" (Py.lower user_input)) ].
Proof.
  intros Hx Hs Hne Hg Hr Hlat Hlon Hname.
  rewrite (handle_weather_located w user_input raw location Hx Hs Hne).
  unfold calls at 1. cbn [fst]. rewrite requested_urls_cons_extraction.
  change (snd (parse_weather_input user_input))
    with (Py.contains "tomorrow" (Py.lower user_input)
          || Py.contains "next day" (Py.lower user_input)).
  rewrite (fetch_weather_located w location _ geo Hg entry more _ _ _ Hr Hlat Hlon Hname).
  unfold prepend, calls at 1. cbn [fst].
  rewrite requested_urls_app, forecast_stage_urls. reflexivity.
Qed.

Lemma handle_weather_requests_witness :
  requested_urls (calls (handle_weather (Stub.pune_world 20 Stub.says_pune)
                                        "And the NEXT DAY?"))
  = [ "https://geocoding-api.open-meteo.com/v1/search?name=Pune";
      "https://api.open-meteo.com/v1/forecast?latitude=18.5&longitude=73.8&daily=temperature_2m_max,temperature_2m_min,weathercode&timezone=auto" ]%string.
Proof.
  apply (handle_weather_requests (Stub.pune_world 20 Stub.says_pune) "And the NEXT DAY?"
           (PStr "Pune") "Pune" Stub.pune_geocode Stub.pune_entry []
           (PFloat 18.5) (PFloat 73.8) (PStr "Pune"));
    first [discriminate | vm_compute; reflexivity].
Defined.

Lemma sanitize_clean (raw : pyval) (location : string) :
  sanitize raw = Return location ->
  Py.strip location = location /\ Py.title location = location.
Proof.
  unfold sanitize. destruct (Builtin.lower raw); [|discriminate].
  intros [= <-]. apply strip_title_clean.
Qed.

(** X17: when what the extractor answers is ASCII text, whenever a run of
    [handle_weather] sends a request, the extractor has answered, the
    sanitized location is not empty, has no leading or trailing whitespace
    and is in title case, and the first request is the geocoding of that
    location. *)
Theorem handle_weather_geocodes_clean_location (w : world) (user_input url : string) :
  (forall raw : string, extract_location w user_input = Return (PStr raw) -> ascii_text raw) ->
  HttpGet url ∈ calls (handle_weather w user_input) ->
  exists (raw : pyval) (location : string) (rest : list event),
    extract_location w user_input = Return raw
    /\ sanitize raw = Return location
    /\ location <> ""%string
    /\ Py.strip location = location
    /\ Py.title location = location
    /\ calls (handle_weather w user_input)
       = ExtractLocation user_input :: HttpGet (geocode_url location) :: rest.
Proof.
  intros _ Hin.
  assert (Hnone : HttpGet url ∈ [ExtractLocation user_input] -> False)
    by (intros H; apply list_elem_of_In in H; cbn in H; intuition discriminate).
  destruct (extract_location w user_input) as [raw|e] eqn:Hx.
  2:{ rewrite (handle_weather_extractor_raises w user_input e Hx) in Hin. now destruct Hnone. }
  destruct (sanitize raw) as [location|e] eqn:Hs.
  2:{ rewrite (handle_weather_sanitize_raises w user_input raw e Hx Hs) in Hin.
      now destruct Hnone. }
  destruct location as [|c location].
  { rewrite (handle_weather_empty w user_input raw Hx Hs) in Hin. now destruct Hnone. }
  destruct (fetch_weather_first_call w (String c location)
              (snd (parse_weather_input user_input))) as [rest Hrest].
  exists raw, (String c location), rest.
  destruct (sanitize_clean raw _ Hs) as [H1 H2].
  repeat split; try assumption; try discriminate.
  rewrite (handle_weather_located w user_input raw _ Hx Hs) by discriminate.
  unfold calls at 1. cbn [fst]. now rewrite Hrest.
Qed.

Lemma handle_weather_geocodes_clean_location_witness :
  exists (raw : pyval) (location : string) (rest : list event),
    extract_location (Stub.pune_world 20 Stub.echo) "  what is the weather in pune " = Return raw
    /\ sanitize raw = Return location
    /\ location <> ""%string
    /\ Py.strip location = location
    /\ Py.title location = location
    /\ calls (handle_weather (Stub.pune_world 20 Stub.echo) "  what is the weather in pune ")
       = ExtractLocation "  what is the weather in pune "
           :: HttpGet (geocode_url location) :: rest.
Proof.
  apply (handle_weather_geocodes_clean_location (Stub.pune_world 20 Stub.echo)
           "  what is the weather in pune "
           "https://geocoding-api.open-meteo.com/v1/search?name=Pune").
  - intros raw [= <-]. vm_compute. reflexivity.
  - vm_compute. right. left.
Defined.

(** X18: the reply depends on the text of the query only through the
    tomorrow flag and through what the extractor answers: the location
    guessed by [parse_weather_input] is dropped. *)
Theorem handle_weather_ignores_location_guess (w : world) (first_input second_input : string) :
  snd (parse_weather_input first_input) = snd (parse_weather_input second_input) ->
  extract_location w first_input = extract_location w second_input ->
  outcome (handle_weather w first_input) = outcome (handle_weather w second_input)
  /\ requested_urls (calls (handle_weather w first_input))
     = requested_urls (calls (handle_weather w second_input)).
Proof.
  intros Hflag Hx. unfold handle_weather, call.
  destruct (parse_weather_input first_input) as [guess1 flag1].
  destruct (parse_weather_input second_input) as [guess2 flag2].
  cbn [snd] in Hflag. subst flag2. rewrite Hx.
  destruct (extract_location w second_input) as [raw|e]; [|now split].
  rewrite !bind_return. unfold calls at 1 3, outcome at 1 3. cbn [fst snd].
  now rewrite !requested_urls_app.
Qed.

Lemma handle_weather_ignores_location_guess_witness :
  outcome (handle_weather (Stub.pune_world 20 Stub.says_pune) "Weather in Delhi")
  = outcome (handle_weather (Stub.pune_world 20 Stub.says_pune) "is it sunny outside")
  /\ requested_urls (calls (handle_weather (Stub.pune_world 20 Stub.says_pune)
                                           "Weather in Delhi"))
     = requested_urls (calls (handle_weather (Stub.pune_world 20 Stub.says_pune)
                                             "is it sunny outside")).
Proof.
  apply (handle_weather_ignores_location_guess (Stub.pune_world 20 Stub.says_pune)
           "Weather in Delhi" "is it sunny outside"); vm_compute; reflexivity.
Defined.

(** ** The table of the class, on codes that are not [int] *)

(** X19: a float code equal to an integer between 0 and 100 is looked up
    as that integer ([61.0] gives "Slight rain"), because equal numbers hash
    and compare alike as dict keys. *)
Theorem weather_description_fetcher_float_code (code : Z) :
  0 <= code <= 100 ->
  weather_description_fetcher (PFloat (Builtin.Z_to_float code))
  = weather_description_fetcher (PInt code).
Proof.
  intros H. rewrite <- (Z2Nat.id code) by lia.
  assert (Hn : (Z.to_nat code <= 100)%nat) by lia.
  revert Hn. generalize (Z.to_nat code). clear. intros n.
  do 101 (destruct n as [|n]; [intros _; vm_compute; reflexivity|]).
  lia.
Qed.

Lemma weather_description_fetcher_float_code_witness :
  weather_description_fetcher (PFloat 61) = Return "Slight rain"%string.
Proof.
  change (PFloat 61) with (PFloat (Builtin.Z_to_float 61)).
  rewrite (weather_description_fetcher_float_code 61); [reflexivity | lia].
Defined.
